(** * OAuth 2.1 bearer-token gate for an MCP server (Entra ID)

    A shallow embedding of [src/auth.py] (the token validator
    [EntraIDAuth.validate_token], the middleware [AuthMiddleware.__call__]
    and the accessor [get_current_user]) together with the wiring of
    [src/main.py], and the properties of the verification pipeline.

    Layout:
    - [PyStr]: the Python string operations the code uses;
    - claim values, exceptions, requests and the configuration;
    - a writer/error monad: every call that leaves the function under
      study is recorded in a trace, exceptions are values;
    - [PyJWT]: the third-party token library the validator calls
      ([jwt.decode], [PyJWKClient]), as far as the validator depends on
      it; base64, JSON, RSA, the clock and the network are fields of a
      [World];
    - [Auth]: [src/auth.py];
    - [Main]: the part of [src/main.py] that installs the middleware;
    - [Fixture]: one concrete world, used to run the definitions;
    - [Props]: the vocabulary of the properties;
    - the lemmas and theorems. *)

From Stdlib Require Import ZArith Ascii String.
From stdpp Require Import base option list strings gmap.

Local Open Scope string_scope.
Local Open Scope Z_scope.

#[local] Set Warnings "-register-all".


(* ===================================================================== *)
(** ** Python string operations *)
(* ===================================================================== *)

Module PyStr.

(** [s.startswith(p)] *)
Definition startswith (s p : string) : bool := String.prefix p s.

(** [c.lower()] on one ASCII character; bytes outside [A-Z] are kept. *)
Definition lower_ascii (c : ascii) : ascii :=
  let n := nat_of_ascii c in
  if ((65 <=? n)%nat && (n <=? 90)%nat)%bool then ascii_of_nat (n + 32) else c.

(** [s.lower()].  The code only compares the result with ["true"]; no
    character outside ASCII lower-cases to one of [t], [r], [u], [e], so
    the byte-wise version decides that comparison exactly. *)
Fixpoint lower (s : string) : string :=
  match s with
  | EmptyString => EmptyString
  | String c r => String (lower_ascii c) (lower r)
  end.

(** [s.split(sep)] for a one-character separator: every occurrence of
    [sep] ends a segment, so consecutive separators give empty segments
    and the result is never empty. *)
Fixpoint split (sep : ascii) (s : string) : list string :=
  match s with
  | EmptyString => [EmptyString]
  | String c r =>
      if Ascii.eqb c sep then EmptyString :: split sep r
      else match split sep r with
           | seg :: segs => String c seg :: segs
           | [] => [String c EmptyString]
           end
  end.

(** [s.split(sep, 1)]: cut at the first [sep]; [None] when there is none
    (Python then returns a one-element list). *)
Fixpoint split_first (sep : ascii) (s : string) : option (string * string) :=
  match s with
  | EmptyString => None
  | String c r =>
      if Ascii.eqb c sep then Some (EmptyString, r)
      else match split_first sep r with
           | Some (a, b) => Some (String c a, b)
           | None => None
           end
  end.

(** [s.rsplit(sep, 1)]: cut at the last [sep]. *)
Fixpoint split_last (sep : ascii) (s : string) : option (string * string) :=
  match s with
  | EmptyString => None
  | String c r =>
      match split_last sep r with
      | Some (a, b) => Some (String c a, b)
      | None => if Ascii.eqb c sep then Some (EmptyString, r) else None
      end
  end.

(** [sep in s] for a one-character [sep]. *)
Fixpoint contains (sep : ascii) (s : string) : bool :=
  match s with
  | EmptyString => false
  | String c r => Ascii.eqb c sep || contains sep r
  end.

(** [f"{x}"] for a value that is a [str] or [None]. *)
Definition fmt (o : option string) : string :=
  match o with Some s => s | None => "None" end.

(** Truth value of a [str] or [None]: [None] and [""] are false. *)
Definition truthy (o : option string) : bool :=
  match o with
  | None => false
  | Some s => negb (String.eqb s "")
  end.

(** [n] is the code of an ASCII whitespace character of [str.split()]:
    tab to carriage return, the four separators 28-31, and the space. *)
Definition is_ascii_ws (n : nat) : bool :=
  ((9 <=? n) && (n <=? 13) || (28 <=? n) && (n <=? 32))%nat.

(** Width in bytes of the whitespace character at the head of a UTF-8
    string, 0 when the string does not start with one.  Beyond ASCII the
    whitespace characters are U+0085, U+00A0, U+1680, U+2000 to U+200A,
    U+2028, U+2029, U+202F, U+205F and U+3000. *)
Definition ws_width (s : string) : nat :=
  match s with
  | EmptyString => 0
  | String c r =>
    let n := nat_of_ascii c in
    if is_ascii_ws n then 1
    else
      match r with
      | EmptyString => 0
      | String d r' =>
        let m := nat_of_ascii d in
        if ((n =? 194) && ((m =? 133) || (m =? 160)))%nat then 2
        else
          match r' with
          | EmptyString => 0
          | String e _ =>
            let k := nat_of_ascii e in
            if ((n =? 225) && (m =? 154) && (k =? 128))%nat then 3
            else if ((n =? 226) && (m =? 128)
                     && ((128 <=? k) && (k <=? 138)
                         || (k =? 168) || (k =? 169) || (k =? 175)))%nat then 3
            else if ((n =? 226) && (m =? 129) && (k =? 159))%nat then 3
            else if ((n =? 227) && (m =? 128) && (k =? 128))%nat then 3
            else 0
          end
      end
  end%nat.

(** The fields between whitespace characters, empty ones included;
    [skip] counts the bytes still to drop of a whitespace character that
    has started. *)
Fixpoint ws_fields (skip : nat) (s : string) : list string :=
  match s with
  | EmptyString => [EmptyString]
  | String c r =>
      match skip with
      | S k => ws_fields k r
      | O =>
          match ws_width s with
          | O => match ws_fields 0 r with
                 | seg :: segs => String c seg :: segs
                 | [] => [String c EmptyString]
                 end
          | S k => EmptyString :: ws_fields k r
          end
      end
  end.

(** [s.split()]: the non-empty fields between runs of whitespace. *)
Definition split_ws (s : string) : list string :=
  List.filter (fun w => negb (String.eqb w "")) (ws_fields 0 s).

(** [sep.join(l)] *)
Fixpoint join (sep : string) (l : list string) : string :=
  match l with
  | [] => EmptyString
  | [w] => w
  | w :: r => w +:+ sep +:+ join sep r
  end.

(** A string of visible ASCII characters (codes 33 to 126). *)
Fixpoint visible (s : string) : bool :=
  match s with
  | EmptyString => true
  | String c r =>
      let n := nat_of_ascii c in
      ((33 <=? n) && (n <=? 126))%nat && visible r
  end.

End PyStr.

(* ===================================================================== *)
(** ** Data *)
(* ===================================================================== *)

(** JSON values as they appear inside a decoded claim set. *)
Inductive value :=
| VNull
| VBool (b : bool)
| VInt (z : Z)
| VStr (s : string)
| VArr (l : list value)
| VObj (l : list (string * value)).

(** A decoded JSON object (a Python [dict] with [str] keys): the claim set
    and the token header. *)
Abbreviation claims := (gmap string value).

(** Python truth value of a JSON value ([not payload["aud"]]). *)
Definition value_truthy (v : value) : bool :=
  match v with
  | VNull => false
  | VBool b => b
  | VInt z => negb (z =? 0)
  | VStr s => negb (String.eqb s "")
  | VArr l => match l with [] => false | _ => true end
  | VObj l => match l with [] => false | _ => true end
  end.

(** The exception classes that can reach the handlers of the code. *)
Inductive exn_class :=
(* jwt.exceptions, subclasses of InvalidTokenError *)
| DecodeError
| InvalidSignatureError
| ExpiredSignatureError
| InvalidAudienceError
| InvalidIssuerError
| InvalidIssuedAtError
| ImmatureSignatureError
| InvalidAlgorithmError
| MissingRequiredClaimError
(* jwt.exceptions, not subclasses of InvalidTokenError *)
| PyJWKClientError
| PyJWKClientConnectionError
(* builtins *)
| AttributeError
| IndexError
| TypeError
| ValueError.

(** [isinstance(e, jwt.InvalidTokenError)] *)
Definition is_InvalidTokenError (c : exn_class) : bool :=
  match c with
  | DecodeError | InvalidSignatureError | ExpiredSignatureError
  | InvalidAudienceError | InvalidIssuerError | InvalidIssuedAtError
  | ImmatureSignatureError | InvalidAlgorithmError
  | MissingRequiredClaimError => true
  | _ => false
  end.

(** The [detail] of an [HTTPException]: a string or a (nested) dict
    literal, kept in the order it is written. *)
Inductive detail :=
| DStr (s : string)
| DDict (fields : list (string * detail)).

Inductive exn :=
| Exn (c : exn_class) (msg : string)
| HTTPException (status_code : Z) (d : detail)
                (headers : option (list (string * string))).

(** A request as the gate sees it: [request.url.path], the header list as
    the ASGI server delivers it (lower-case names) and the attribute
    [user] of [request.state] ([None]: the attribute does not exist). *)
Record Request := mkRequest {
  url_path : string;
  headers : list (string * string);
  state_user : option claims;
}.

(** [request.headers.get(name)]: the name is lower-cased and the first
    header with that name is returned. *)
Definition headers_get (name : string) (r : Request) : option string :=
  snd <$> List.find (fun kv => String.eqb (fst kv) (PyStr.lower name)) (headers r).

(** [request.state.user = c] *)
Definition set_state_user (r : Request) (c : claims) : Request :=
  {| url_path := url_path r; headers := headers r; state_user := Some c |}.

(** The module-level configuration of [auth.py] (lines 24-28). *)
Record Config := mkConfig {
  AZURE_TENANT_ID : option string;
  AZURE_CLIENT_ID : option string;
  TOKEN_AUDIENCE : string;
  TOKEN_ISSUER : string;
  ENABLE_AUTH : bool;
}.

(** [os.getenv(name)] and [os.getenv(name, default)] over an environment. *)
Definition getenv (env : gmap string string) (name : string) : option string :=
  env !! name.

Definition getenv_default (env : gmap string string) (name dflt : string) : string :=
  default dflt (env !! name).

(** Lines 24-28 of [auth.py]: the configuration read once at import. *)
Definition load_config (env : gmap string string) : Config :=
  let tenant := getenv env "AZURE_TENANT_ID" in
  let client := getenv env "AZURE_CLIENT_ID" in
  {| AZURE_TENANT_ID := tenant;
     AZURE_CLIENT_ID := client;
     TOKEN_AUDIENCE :=
       getenv_default env "TOKEN_AUDIENCE" ("api://" +:+ PyStr.fmt client);
     TOKEN_ISSUER :=
       getenv_default env "TOKEN_ISSUER"
         ("https://login.microsoftonline.com/" +:+ PyStr.fmt tenant +:+ "/v2.0");
     ENABLE_AUTH :=
       String.eqb (PyStr.lower (getenv_default env "ENABLE_AUTH" "true")) "true" |}.

(* ===================================================================== *)
(** ** Effects: exceptions as values, outgoing calls as a trace *)
(* ===================================================================== *)

(** Key material of a signing key ([PyJWK.key]). *)
Abbreviation Key := string.

(** The calls that leave the function under study, in program order. *)
Inductive event :=
| EvGetSigningKey (token : string)
    (* self.jwks_client.get_signing_key_from_jwt(token), auth.py:81 *)
| EvDecodeUnverified (token : string)
    (* jwt.decode(token, options={"verify_signature": False}), auth.py:84 *)
| EvDecodeVerified (token : string) (key : Key)
    (* jwt.decode(token, signing_key.key, ...), auth.py:103 *)
| EvValidateToken (token : string)
    (* auth_handler.validate_token(token), auth.py:198 *)
| EvCallNext (r : Request).
    (* call_next(request), auth.py:171, 175, 207 *)

(** A pure computation that returns or raises. *)
Definition res (A : Type) : Type := exn + A.

Definition res_bind {A B} (m : res A) (k : A -> res B) : res B :=
  match m with
  | inl e => inl e
  | inr a => k a
  end.

(** A computation that returns or raises and leaves a trace of calls. *)
Definition M (A : Type) : Type := list event * res A.

Definition ret {A} (a : A) : M A := ([], inr a).
Definition raise {A} (e : exn) : M A := ([], inl e).

Definition bind {A B} (m : M A) (k : A -> M B) : M B :=
  match m with
  | (t, inl e) => (t, inl e)
  | (t, inr a) => let '(t', r) := k a in ((t ++ t')%list, r)
  end.

(** [call ev r]: perform the outgoing call [ev], whose outcome is [r]. *)
Definition call {A} (ev : event) (r : res A) : M A := ([ev], r).

(** [try: m  except Exception as e: h e]; handlers that do not apply
    re-raise inside [h]. *)
Definition try_except {A} (m : M A) (h : exn -> M A) : M A :=
  match m with
  | (t, inl e) => let '(t', r) := h e in ((t ++ t')%list, r)
  | (t, inr a) => (t, inr a)
  end.

Definition trace {A} (m : M A) : list event := fst m.
Definition outcome {A} (m : M A) : res A := snd m.

Declare Scope eff_scope.
Delimit Scope eff_scope with eff.
Notation "x <- m ;; k" := (bind m (fun x => k))
  (at level 63, m at next level, right associativity) : eff_scope.
Notation "x <~ m ;; k" := (res_bind m (fun x => k))
  (at level 63, m at next level, right associativity) : eff_scope.
Notation "m1 ;;; m2" := (res_bind m1 (fun _ => m2))
  (at level 63, right associativity) : eff_scope.
Local Open Scope eff_scope.

(* ===================================================================== *)
(** ** The token library (PyJWT) as the validator uses it *)
(* ===================================================================== *)

(** [jwt.decode] and [PyJWKClient] belong to the PyJWT package, not to this
    repository.  The module below follows PyJWT 2.x ([api_jws._load],
    [api_jws._verify_signature], [api_jwt.decode_complete],
    [api_jwt._validate_claims], [jwks_client.PyJWKClient]) in the order in
    which that code performs its checks and raises.  What lies below it is
    a field of [World]: base64url and JSON decoding, [int()] on a string,
    the signature primitive, the clock and the JWKS endpoint.  JSON numbers
    are integers here, and every published key is usable with the
    requested algorithm. *)

Module PyJWT.

Record JWK := mkJWK {
  key_id : option string;
  public_key_use : option string;
  key : Key;
}.

(** Result of [json.loads]: an object, or some other JSON value. *)
Inductive json_doc :=
| JDict (d : claims)
| JOther (v : value).

Record World := mkWorld {
  (** [datetime.now(tz=timezone.utc).timestamp()], rounded down *)
  now : Z;
  (** [base64url_decode]; [None]: wrong padding *)
  b64url_decode : string -> option string;
  (** [json.loads]; [inl msg]: not JSON *)
  json_loads : string -> string + json_doc;
  (** [int(s)] for a [str]; [None]: [ValueError] *)
  int_of_str : string -> option Z;
  (** the signing keys the client obtains from the JWKS endpoint at a URI
      during one validation; [inl msg]: the endpoint is unreachable or
      the document is malformed *)
  fetch_jwks : string -> string + list JWK;
  (** [alg_obj.verify(signing_input, key, signature)] for algorithm [alg] *)
  alg_verify : string -> string -> Key -> string -> bool;
}.

(** The double-quote character, for messages that quote a claim name. *)
Definition dq : string := String (ascii_of_nat 34) EmptyString.

Definition err {A} (c : exn_class) (msg : string) : res A := inl (Exn c msg).

(** The [options] dict of [jwt.decode]. *)
Record options := mkOptions {
  verify_signature : bool;
  verify_exp : bool;
  verify_nbf : bool;
  verify_iat : bool;
  verify_aud : bool;
  verify_iss : bool;
}.

(** [options={"verify_signature": False}]: with signature verification
    off, every claim check defaults to off. *)
Definition options_unverified : options :=
  mkOptions false false false false false false.

(** The options of auth.py:109-114 merged with the library defaults
    ([verify_nbf] and [verify_iat] default to [True]). *)
Definition options_verified : options :=
  mkOptions true true true true true true.

Record loaded := mkLoaded {
  l_payload : string;
  l_signing_input : string;
  l_header : claims;
  l_signature : string;
}.

(** [api_jws._load]: cut the token at its last and at its first dot, then
    decode the header, the payload bytes and the signature bytes. *)
Definition _load (W : World) (token : string) : res loaded :=
  match PyStr.split_last "." token with
  | None => err DecodeError "Not enough segments"
  | Some (signing_input, crypto_segment) =>
    match PyStr.split_first "." signing_input with
    | None => err DecodeError "Not enough segments"
    | Some (header_segment, payload_segment) =>
      match b64url_decode W header_segment with
      | None => err DecodeError "Invalid header padding"
      | Some header_data =>
        match json_loads W header_data with
        | inl e => err DecodeError ("Invalid header string: " +:+ e)
        | inr (JOther _) =>
            err DecodeError "Invalid header string: must be a json object"
        | inr (JDict header) =>
          match b64url_decode W payload_segment with
          | None => err DecodeError "Invalid payload padding"
          | Some payload =>
            match b64url_decode W crypto_segment with
            | None => err DecodeError "Invalid crypto padding"
            | Some signature =>
                inr (mkLoaded payload signing_input header signature)
            end
          end
        end
      end
    end
  end.

(** [api_jws.decode_complete], after loading: a header with [b64] set to
    [false] announces a detached payload, and none is passed. *)
Definition detached_payload_required : string :=
  "It is required that you pass in a value for the " +:+ dq
  +:+ "detached_payload" +:+ dq
  +:+ " argument to decode a message having the b64 header set to false.".

Definition _check_b64 (l : loaded) : res unit :=
  match l_header l !! "b64" with
  | Some (VBool false) => err DecodeError detached_payload_required
  | _ => inr tt
  end.

(** [api_jws._verify_signature] *)
Definition _verify_signature (W : World) (l : loaded) (key : option Key)
    (algorithms : list string) : res unit :=
  match l_header l !! "alg" with
  | None => err InvalidAlgorithmError "Algorithm not specified"
  | Some (VStr alg) =>
      if negb (value_truthy (VStr alg)) || negb (bool_decide (alg ∈ algorithms))
      then err InvalidAlgorithmError "The specified alg value is not allowed"
      else match key with
           | None => err TypeError "Expecting a PEM-formatted key."
           | Some k =>
               if alg_verify W alg (l_signing_input l) k (l_signature l)
               then inr tt
               else err InvalidSignatureError "Signature verification failed"
           end
  | Some _ => err InvalidAlgorithmError "The specified alg value is not allowed"
  end.

(** [api_jwt._decode_payload] *)
Definition _decode_payload (W : World) (l : loaded) : res claims :=
  match json_loads W (l_payload l) with
  | inl e => err DecodeError ("Invalid payload string: " +:+ e)
  | inr (JOther _) =>
      err DecodeError "Invalid payload string: must be a json object"
  | inr (JDict payload) => inr payload
  end.

(** [int(v)] for a claim value. *)
Inductive int_result :=
| IntOk (z : Z)
| IntValueError
| IntTypeError.

Definition py_int (W : World) (v : value) : int_result :=
  match v with
  | VInt z => IntOk z
  | VBool b => IntOk (if b then 1 else 0)
  | VStr s => match int_of_str W s with
              | Some z => IntOk z
              | None => IntValueError
              end
  | _ => IntTypeError
  end.

Definition int_type_error {A} : res A :=
  err TypeError "int() argument must be a string, a bytes-like object or a real number".

Definition _validate_iat (W : World) (payload : claims) : res unit :=
  match payload !! "iat" with
  | None => inr tt
  | Some v =>
      match py_int W v with
      | IntValueError =>
          err InvalidIssuedAtError "Issued At claim (iat) must be an integer."
      | IntTypeError => int_type_error
      | IntOk iat =>
          if now W <? iat
          then err ImmatureSignatureError "The token is not yet valid (iat)"
          else inr tt
      end
  end.

Definition _validate_nbf (W : World) (payload : claims) : res unit :=
  match payload !! "nbf" with
  | None => inr tt
  | Some v =>
      match py_int W v with
      | IntValueError =>
          err DecodeError "Not Before claim (nbf) must be an integer."
      | IntTypeError => int_type_error
      | IntOk nbf =>
          if now W <? nbf
          then err ImmatureSignatureError "The token is not yet valid (nbf)"
          else inr tt
      end
  end.

(** [exp <= now] raises: a token expires at its expiration second. *)
Definition _validate_exp (W : World) (payload : claims) : res unit :=
  match payload !! "exp" with
  | None => inr tt
  | Some v =>
      match py_int W v with
      | IntValueError =>
          err DecodeError "Expiration Time claim (exp) must be an integer."
      | IntTypeError => int_type_error
      | IntOk exp =>
          if exp <=? now W
          then err ExpiredSignatureError "Signature has expired"
          else inr tt
      end
  end.

Definition missing_claim {A} (name : string) : res A :=
  err MissingRequiredClaimError
      ("Token is missing the " +:+ dq +:+ name +:+ dq +:+ " claim").

(** [_validate_iss] with [issuer] a list of accepted strings. *)
Definition _validate_iss (payload : claims) (issuer : option (list string)) : res unit :=
  match issuer with
  | None => inr tt
  | Some issuers =>
      match payload !! "iss" with
      | None => missing_claim "iss"
      | Some (VStr iss) =>
          if bool_decide (iss ∈ issuers) then inr tt
          else err InvalidIssuerError "Invalid issuer"
      | Some _ => err InvalidIssuerError "Invalid issuer"
      end
  end.

(** The audience claim as a list of strings: a string counts as a
    one-element list; [None] for any other shape. *)
Fixpoint all_str (l : list value) : option (list string) :=
  match l with
  | [] => Some []
  | VStr s :: r => match all_str r with
                   | Some ss => Some (s :: ss)
                   | None => None
                   end
  | _ :: _ => None
  end.

Definition audience_claims (v : value) : option (list string) :=
  match v with
  | VStr s => Some [s]
  | VArr l => all_str l
  | _ => None
  end.

(** [_validate_aud] with [audience] a string or [None]. *)
Definition _validate_aud (payload : claims) (audience : option string) : res unit :=
  let present := match payload !! "aud" with
                 | Some v => value_truthy v
                 | None => false
                 end in
  match audience with
  | None =>
      if present then err InvalidAudienceError "Invalid audience" else inr tt
  | Some aud =>
      match payload !! "aud" with
      | None => missing_claim "aud"
      | Some v =>
          if negb (value_truthy v) then missing_claim "aud"
          else match audience_claims v with
               | None => err InvalidAudienceError "Invalid claim format in token"
               | Some auds =>
                   if bool_decide (aud ∈ auds) then inr tt
                   else err InvalidAudienceError "Audience doesn't match"
               end
      end
  end.

(** [api_jwt._validate_claims]: iat, nbf, exp, iss, aud, in this order. *)
Definition _validate_claims (W : World) (payload : claims) (opts : options)
    (audience : option string) (issuer : option (list string)) : res unit :=
  (if verify_iat opts then _validate_iat W payload else inr tt) ;;;
  (if verify_nbf opts then _validate_nbf W payload else inr tt) ;;;
  (if verify_exp opts then _validate_exp W payload else inr tt) ;;;
  (if verify_iss opts then _validate_iss payload issuer else inr tt) ;;;
  (if verify_aud opts then _validate_aud payload audience else inr tt).

Definition algorithms_required : string :=
  "It is required that you pass in a value for the " +:+ dq +:+ "algorithms"
  +:+ dq +:+ " argument when calling decode().".

(** [api_jwt.decode_complete]: load, verify the signature, parse the
    payload, validate the claims; returns header and payload. *)
Definition decode_complete (W : World) (token : string) (key : option Key)
    (algorithms : list string) (audience : option string)
    (issuer : option (list string)) (opts : options) : res (claims * claims) :=
  if verify_signature opts && bool_decide (algorithms = [])
  then err DecodeError algorithms_required
  else
    l <~ _load W token ;;
    _check_b64 l ;;;
    (if verify_signature opts then _verify_signature W l key algorithms
     else inr tt) ;;;
    payload <~ _decode_payload W l ;;
    _validate_claims W payload opts audience issuer ;;;
    inr (l_header l, payload).

(** [jwt.decode]: the payload of [decode_complete]. *)
Definition decode (W : World) (token : string) (key : option Key)
    (algorithms : list string) (audience : option string)
    (issuer : option (list string)) (opts : options) : res claims :=
  d <~ decode_complete W token key algorithms audience issuer opts ;;
  inr (snd d).

(** [PyJWKClient(uri)] *)
Record PyJWKClient := mkClient { uri : string }.

(** [PyJWKClient.get_signing_keys]: keys meant for signatures that carry
    a key id. *)
Definition is_signing_key (k : JWK) : bool :=
  match public_key_use k with
  | None => PyStr.truthy (key_id k)
  | Some u => String.eqb u "sig" && PyStr.truthy (key_id k)
  end.

Definition get_signing_keys (W : World) (c : PyJWKClient) : res (list JWK) :=
  match fetch_jwks W (uri c) with
  | inl msg => err PyJWKClientError msg
  | inr keys =>
      match List.filter is_signing_key keys with
      | [] => err PyJWKClientError "The JWKS endpoint did not contain any signing keys"
      | ks => inr ks
      end
  end.

(** [PyJWKClient.match_kid]: the first key whose id equals [kid]. *)
Definition match_kid (signing_keys : list JWK) (kid : option value) : option JWK :=
  match kid with
  | Some (VStr k) =>
      List.find (fun j => match key_id j with
                          | Some i => String.eqb i k
                          | None => false
                          end) signing_keys
  | _ => None
  end.

Definition show_kid (kid : option value) : string :=
  match kid with
  | Some (VStr k) => dq +:+ k +:+ dq
  | _ => dq +:+ "None" +:+ dq
  end.

(** [PyJWKClient.get_signing_key]; a refresh after a miss sees the same
    key set within one validation. *)
Definition get_signing_key (W : World) (c : PyJWKClient) (kid : option value) : res JWK :=
  signing_keys <~ get_signing_keys W c ;;
  match match_kid signing_keys kid with
  | Some k => inr k
  | None =>
      err PyJWKClientError
          ("Unable to find a signing key that matches: " +:+ show_kid kid)
  end.

(** [PyJWKClient.get_signing_key_from_jwt]: parse the token without
    verification, then look its [kid] up. *)
Definition get_signing_key_from_jwt (W : World) (c : PyJWKClient) (token : string) : res JWK :=
  unverified <~ decode_complete W token None [] None None options_unverified ;;
  get_signing_key W c (fst unverified !! "kid").

End PyJWT.

(* ===================================================================== *)
(** ** src/auth.py *)
(* ===================================================================== *)

Module Auth.
Import PyJWT.

(** The attributes of an [EntraIDAuth] instance. *)
Record EntraIDAuth := mkEntraIDAuth {
  tenant_id : option string;
  client_id : option string;
  jwks_uri : string;
  jwks_client : option PyJWKClient;
}.

(** [EntraIDAuth._validate_config]: [not all([tenant_id, client_id])]. *)
Definition _validate_config (tenant client : option string) : res unit :=
  if negb (PyStr.truthy tenant && PyStr.truthy client)
  then inl (Exn ValueError
         ("Missing required Entra ID configuration. " +:+
          "Please set AZURE_TENANT_ID, AZURE_CLIENT_ID in environment variables."))
  else inr tt.

(** [EntraIDAuth.__init__] *)
Definition EntraIDAuth_init (cfg : Config) : res EntraIDAuth :=
  let tenant := AZURE_TENANT_ID cfg in
  let client := AZURE_CLIENT_ID cfg in
  let uri := "https://login.microsoftonline.com/" +:+ PyStr.fmt tenant
             +:+ "/discovery/v2.0/keys" in
  if ENABLE_AUTH cfg then
    _validate_config tenant client ;;;
    inr (mkEntraIDAuth tenant client uri (Some (mkClient uri)))
  else inr (mkEntraIDAuth tenant client uri None).

(** auth.py:90-93, the issuers handed to the verified decode. *)
Definition valid_issuers (self : EntraIDAuth) : list string :=
  [ "https://sts.windows.net/" +:+ PyStr.fmt (tenant_id self) +:+ "/";
    "https://login.microsoftonline.com/" +:+ PyStr.fmt (tenant_id self) +:+ "/v2.0" ].

(** [HTTPException(status_code=401, detail=d)] *)
Definition http401 (d : string) : exn := HTTPException 401 (DStr d) None.

(** The [try] block of [validate_token] (auth.py:79-119).  Logging has no
    effect on the result and is left out. *)
Definition validate_token_try (W : World) (cfg : Config) (self : EntraIDAuth)
    (token : string) : M claims :=
  signing_key <-
    match jwks_client self with
    | None =>
        raise (Exn AttributeError
          "'NoneType' object has no attribute 'get_signing_key_from_jwt'")
    | Some c => call (EvGetSigningKey token) (get_signing_key_from_jwt W c token)
    end ;;
  unverified_token <-
    call (EvDecodeUnverified token)
         (decode W token None [] None None options_unverified) ;;
  let actual_issuer := unverified_token !! "iss" in
  decoded_token <-
    call (EvDecodeVerified token (key signing_key))
         (decode W token (Some (key signing_key)) ["RS256"]
                 (Some (TOKEN_AUDIENCE cfg)) (Some (valid_issuers self))
                 options_verified) ;;
  ret decoded_token.

(** The [except] clauses of [validate_token] (auth.py:121-135), tried in
    the order they are written. *)
Definition validate_token_except (e : exn) : M claims :=
  match e with
  | Exn ExpiredSignatureError _ => raise (http401 "Token has expired")
  | Exn InvalidAudienceError _ => raise (http401 "Invalid token audience")
  | Exn InvalidIssuerError _ => raise (http401 "Invalid token issuer")
  | Exn c msg =>
      if is_InvalidTokenError c
      then raise (http401 ("Invalid token: " +:+ msg))
      else raise (http401 "Token validation failed")
  | HTTPException _ _ _ => raise (http401 "Token validation failed")
  end.

(** [EntraIDAuth.validate_token] *)
Definition validate_token (W : World) (cfg : Config) (self : EntraIDAuth)
    (token : string) : M claims :=
  try_except (validate_token_try W cfg self token) validate_token_except.

(** The attributes of an [AuthMiddleware] instance. *)
Record AuthMiddleware := mkAuthMiddleware {
  excluded_paths : list string;
}.

(** [AuthMiddleware.__init__]: [excluded_paths or [...]]; an absent or
    empty list gives the defaults. *)
Definition AuthMiddleware_init (excluded : option (list string)) : AuthMiddleware :=
  match excluded with
  | Some (p :: ps) => mkAuthMiddleware (p :: ps)
  | _ => mkAuthMiddleware ["/docs"; "/redoc"; "/openapi.json"; "/health"]
  end.

(** The exception of auth.py:180-193. *)
Definition missing_authorization (cfg : Config) : exn :=
  HTTPException 401
    (DDict
       [ ("error", DStr "unauthorized");
         ("message", DStr "Missing or invalid authorization header");
         ("instructions",
          DDict
            [ ("how_to_get_token",
               DStr "Use client credentials flow to acquire a token from Microsoft Entra ID");
              ("token_endpoint",
               DStr ("https://login.microsoftonline.com/"
                     +:+ PyStr.fmt (AZURE_TENANT_ID cfg) +:+ "/oauth2/v2.0/token"));
              ("required_scopes",
               DStr ("api://" +:+ PyStr.fmt (AZURE_CLIENT_ID cfg) +:+ "/user_read"));
              ("usage",
               DStr "Include the token in the Authorization header as: Bearer <your_access_token>")
            ]) ])
    (Some [("WWW-Authenticate", "Bearer")]).

(** [any(request.url.path.startswith(path) for path in self.excluded_paths)] *)
Definition is_excluded (self : AuthMiddleware) (request : Request) : bool :=
  existsb (fun path => PyStr.startswith (url_path request) path)
          (excluded_paths self).

(** [not auth_header or not auth_header.startswith("Bearer ")] *)
Definition bad_authorization (auth_header : option string) : bool :=
  match auth_header with
  | None => true
  | Some h => negb (PyStr.truthy (Some h)) || negb (PyStr.startswith h "Bearer ")
  end.

Section Gate.

(** The response type and the rest of the chain are the framework's. *)
Context {Response : Type}.
Variable W : World.
Variable cfg : Config.
Variable auth_handler : EntraIDAuth.

(** auth.py:197-205: validate, store the claims on the request, and map
    any exception that is not an [HTTPException]. *)
Definition authenticate (request : Request) (token : string) : M Request :=
  try_except
    (decoded_token <-
       (_ <- call (EvValidateToken token) (inr tt) ;;
        validate_token W cfg auth_handler token) ;;
     ret (set_state_user request decoded_token))
    (fun e => match e with
              | HTTPException _ _ _ => raise e
              | Exn _ _ => raise (http401 "Authentication failed")
              end).

(** [AuthMiddleware.__call__] *)
Definition AuthMiddleware_call (self : AuthMiddleware) (request : Request)
    (call_next : Request -> res Response) : M Response :=
  if is_excluded self request then
    call (EvCallNext request) (call_next request)
  else if negb (ENABLE_AUTH cfg) then
    call (EvCallNext request) (call_next request)
  else
    let auth_header := headers_get "Authorization" request in
    if bad_authorization auth_header then raise (missing_authorization cfg)
    else
      match PyStr.split " " (default "" auth_header) !! 1%nat with
      | None => raise (Exn IndexError "list index out of range")
      | Some token =>
          request' <- authenticate request token ;;
          call (EvCallNext request') (call_next request')
      end.

End Gate.

(** The identity [get_current_user] returns while authentication is off. *)
Definition development_user : claims :=
  <[ "sub" := VStr "development-user" ]>
    (<[ "name" := VStr "Development User" ]> ∅).

(** [get_current_user] *)
Definition get_current_user (cfg : Config) (request : Request) : res claims :=
  if negb (ENABLE_AUTH cfg) then inr development_user
  else match state_user request with
       | None => inl (http401 "User not authenticated")
       | Some user => inr user
       end.

End Auth.

(* ===================================================================== *)
(** ** src/main.py: how the gate is installed *)
(* ===================================================================== *)

Module Main.
Import PyJWT Auth.

(** main.py:55-57 *)
Definition auth_middleware : AuthMiddleware :=
  AuthMiddleware_init (Some ["/health"; "/docs"]).

(** main.py:54-58: the gate stands in front of the routes only when
    authentication is enabled. *)
Definition dispatch {Response : Type} (W : World) (cfg : Config)
    (auth_handler : EntraIDAuth) (request : Request)
    (route : Request -> res Response) : M Response :=
  if ENABLE_AUTH cfg
  then AuthMiddleware_call W cfg auth_handler auth_middleware request route
  else call (EvCallNext request) (route request).

(** [health_check] (main.py:63-70) *)
Definition health_check (cfg : Config) : claims :=
  <[ "status" := VStr "healthy" ]>
    (<[ "service" := VStr "MCP Server" ]>
       (<[ "authentication" :=
             VStr (if ENABLE_AUTH cfg then "enabled" else "disabled") ]> ∅)).

(** [d.get(k)] and [d.get(k, dflt)]; [None] is the JSON null. *)
Definition dict_get_or (d : claims) (k : string) (dflt : value) : value :=
  default dflt (d !! k).

(** [type(v).__name__] *)
Definition type_name (v : value) : string :=
  match v with
  | VNull => "NoneType"
  | VBool _ => "bool"
  | VInt _ => "int"
  | VStr _ => "str"
  | VArr _ => "list"
  | VObj _ => "dict"
  end.

(** main.py:87, [token_data.get("scp", "").split() if "scp" in token_data
    else []]: only a string has [split]. *)
Definition scopes_of (token_data : claims) : res value :=
  match token_data !! "scp" with
  | None => inr (VArr [])
  | Some (VStr s) => inr (VArr (VStr <$> PyStr.split_ws s))
  | Some v =>
      inl (Exn AttributeError
             ("'" +:+ type_name v +:+ "' object has no attribute 'split'"))
  end.

(** [get_user_info] (main.py:78-88), the handler of [/me]. *)
Definition get_user_info (cfg : Config) (request : Request) : res claims :=
  token_data <~ get_current_user cfg request ;;
  let user_id := dict_get_or token_data "sub" VNull in
  let name := dict_get_or token_data "name" VNull in
  let email :=
    dict_get_or token_data "email"
      (dict_get_or token_data "upn"
         (dict_get_or token_data "preferred_username" VNull)) in
  let roles := dict_get_or token_data "roles" (VArr []) in
  scopes <~ scopes_of token_data ;;
  inr (<[ "user_id" := user_id ]>
         (<[ "name" := name ]>
            (<[ "email" := email ]>
               (<[ "roles" := roles ]>
                  (<[ "scopes" := scopes ]> ∅))))).

End Main.

(* ===================================================================== *)
(** ** A concrete world *)
(* ===================================================================== *)

(** Tenant [t1], client [c1], one RSA key [k1] published by the tenant's
    JWKS endpoint, the clock at 1000.  Segments are written in clear:
    base64url decoding is the identity and JSON documents are looked up
    in a table. *)

Module Fixture.
Import PyJWT Auth.

Definition env : gmap string string :=
  <[ "AZURE_TENANT_ID" := "t1" ]> (<[ "AZURE_CLIENT_ID" := "c1" ]> ∅).

Definition cfg : Config := load_config env.

(** The same deployment with the issuer input set. *)
Definition env_issuer : gmap string string :=
  <[ "TOKEN_ISSUER" := "https://issuer.example/" ]> env.

Definition cfg_issuer : Config := load_config env_issuer.

(** The same deployment with authentication switched off. *)
Definition env_off : gmap string string := <[ "ENABLE_AUTH" := "False" ]> env.

Definition cfg_off : Config := load_config env_off.

Definition issuer_v1 : string := "https://sts.windows.net/t1/".
Definition issuer_v2 : string := "https://login.microsoftonline.com/t1/v2.0".

Definition header_of (kid : string) : claims :=
  <[ "alg" := VStr "RS256" ]> (<[ "kid" := VStr kid ]> ∅).

Definition payload_of (iss : string) (exp : Z) : claims :=
  <[ "iss" := VStr iss ]>
    (<[ "aud" := VStr "api://c1" ]>
       (<[ "exp" := VInt exp ]> (<[ "sub" := VStr "alice" ]> ∅))).

Definition documents : list (string * claims) :=
  [ ("h1", header_of "k1");
    ("h9", header_of "k9");
    ("v1", payload_of issuer_v1 2000);
    ("v2", payload_of issuer_v2 2000);
    ("old", payload_of issuer_v2 500);
    ("other", payload_of "https://issuer.example/" 2000) ].

Definition world : World :=
  {| now := 1000;
     b64url_decode := fun s => Some s;
     json_loads := fun s =>
       match List.find (fun d => String.eqb (fst d) s) documents with
       | Some d => inr (JDict (snd d))
       | None => inl "Expecting value"
       end;
     int_of_str := fun _ => None;
     fetch_jwks := fun u =>
       if String.eqb u "https://login.microsoftonline.com/t1/discovery/v2.0/keys"
       then inr [mkJWK (Some "k1") (Some "sig") "KEY1"]
       else inl "Fail to fetch data from the url";
     alg_verify := fun alg _ k sig =>
       String.eqb alg "RS256" && String.eqb k "KEY1" && String.eqb sig "good" |}.

Definition handler : EntraIDAuth :=
  mkEntraIDAuth (Some "t1") (Some "c1")
    "https://login.microsoftonline.com/t1/discovery/v2.0/keys"
    (Some (mkClient "https://login.microsoftonline.com/t1/discovery/v2.0/keys")).

(** A downstream handler that answers with the claims it can see. *)
Definition echo_route (r : Request) : res (option claims) := inr (state_user r).

Definition request_of (path : string) (hs : list (string * string)) : Request :=
  mkRequest path hs None.

End Fixture.

(** The same world with a few more documents: a header that names
    another algorithm, and payloads with another audience, with a list of
    audiences, without an expiration and with string-valued scopes. *)

Module Fixture2.
Import PyJWT Auth.

Definition payload_with (aud : value) (rest : claims) : claims :=
  <[ "iss" := VStr Fixture.issuer_v2 ]> (<[ "aud" := aud ]> rest).

Definition full_claims : claims :=
  payload_with (VStr "api://c1")
    (<[ "exp" := VInt 2000 ]>
       (<[ "sub" := VStr "carol" ]>
          (<[ "upn" := VStr "carol@example.org" ]>
             (<[ "scp" := VStr "user_read mail.read" ]> ∅)))).

Definition documents : list (string * claims) :=
  [ ("hs", <[ "alg" := VStr "HS256" ]> (<[ "kid" := VStr "k1" ]> ∅));
    ("aud2", payload_with (VStr "api://c2") (<[ "exp" := VInt 2000 ]> ∅));
    ("auds", payload_with (VArr [VStr "api://c2"; VStr "api://c1"])
               (<[ "exp" := VInt 2000 ]> ∅));
    ("noexp", payload_with (VStr "api://c1") (<[ "sub" := VStr "bob" ]> ∅));
    ("full", full_claims) ].

Definition world : World :=
  {| now := now Fixture.world;
     b64url_decode := b64url_decode Fixture.world;
     json_loads := fun s =>
       match List.find (fun d => String.eqb (fst d) s) documents with
       | Some d => inr (JDict (snd d))
       | None => json_loads Fixture.world s
       end;
     int_of_str := int_of_str Fixture.world;
     fetch_jwks := fetch_jwks Fixture.world;
     alg_verify := alg_verify Fixture.world |}.

Definition client : PyJWKClient :=
  mkClient "https://login.microsoftonline.com/t1/discovery/v2.0/keys".

Definition jwk1 : JWK := mkJWK (Some "k1") (Some "sig") "KEY1".

End Fixture2.

(* ===================================================================== *)
(** ** Vocabulary of the properties *)
(* ===================================================================== *)

Module Props.
Import PyJWT Auth.

(** "The claims are parsed before the key is resolved": every key
    resolution in a trace has an unverified parse of the same token
    before it. *)
Definition parse_before_key (tr : list event) : Prop :=
  forall i token, tr !! i = Some (EvGetSigningKey token) ->
    exists j, (j < i)%nat /\ tr !! j = Some (EvDecodeUnverified token).

(** The verified decode of auth.py:103-115 with some claim checks left
    out: what "passes the other checks" means for one check. *)
Definition decode_with (W : World) (cfg : Config) (self : EntraIDAuth)
    (token : string) (k : Key) (opts : options) : res claims :=
  decode W token (Some k) ["RS256"] (Some (TOKEN_AUDIENCE cfg))
         (Some (valid_issuers self)) opts.

(** Signature and the time claims read before [exp]. *)
Definition options_before_exp : options :=
  mkOptions true false true true false false.

(** Every check of the verified decode except the issuer check. *)
Definition options_without_iss : options :=
  mkOptions true true true true true false.

(** The two tenant-issuer forms. *)
Definition issuer_v1 (tenant : option string) : string :=
  "https://sts.windows.net/" +:+ PyStr.fmt tenant +:+ "/".
Definition issuer_v2 (tenant : option string) : string :=
  "https://login.microsoftonline.com/" +:+ PyStr.fmt tenant +:+ "/v2.0".

(** The configuration with another value of the issuer input. *)
Definition with_issuer (cfg : Config) (iss : string) : Config :=
  {| AZURE_TENANT_ID := AZURE_TENANT_ID cfg;
     AZURE_CLIENT_ID := AZURE_CLIENT_ID cfg;
     TOKEN_AUDIENCE := TOKEN_AUDIENCE cfg;
     TOKEN_ISSUER := iss;
     ENABLE_AUTH := ENABLE_AUTH cfg |}.

(** The failures [validate_token] tells apart, by [except] clause. *)
Inductive failure :=
| Expired
| AudienceMismatch
| IssuerMismatch
| InvalidToken (msg : string)
| ValidationFailed.

Definition classify (e : exn) : failure :=
  match e with
  | Exn ExpiredSignatureError _ => Expired
  | Exn InvalidAudienceError _ => AudienceMismatch
  | Exn InvalidIssuerError _ => IssuerMismatch
  | Exn c msg => if is_InvalidTokenError c then InvalidToken msg else ValidationFailed
  | HTTPException _ _ _ => ValidationFailed
  end.

Definition detail_of (f : failure) : string :=
  match f with
  | Expired => "Token has expired"
  | AudienceMismatch => "Invalid token audience"
  | IssuerMismatch => "Invalid token issuer"
  | InvalidToken msg => "Invalid token: " +:+ msg
  | ValidationFailed => "Token validation failed"
  end.

(** The parts of a token that decodes with its signature verified under
    RS256 by key [k]: it loads, the signature check passes and the payload
    is the JSON object [payload]. *)
Definition decoded (W : World) (token : string) (k : Key) (payload : claims) : Prop :=
  exists l, _load W token = inr l
    /\ _check_b64 l = inr tt
    /\ _verify_signature W l (Some k) ["RS256"] = inr tt
    /\ _decode_payload W l = inr payload.

(** [d[name]] on a dict-valued detail. *)
Definition dict_get (name : string) (d : detail) : option detail :=
  match d with
  | DDict fields =>
      snd <$> List.find (fun kv => String.eqb (fst kv) name) fields
  | DStr _ => None
  end.

(** A trace in which the validator was at work: it was invoked, or one of
    its library calls was made. *)
Definition validator_event (ev : event) : bool :=
  match ev with
  | EvCallNext _ => false
  | _ => true
  end.

Definition invokes_validator (tr : list event) : bool :=
  existsb validator_event tr.

(** The calls [validate_token] makes into the token library. *)
Definition library_event (ev : event) : Prop :=
  match ev with
  | EvGetSigningKey _ | EvDecodeUnverified _ | EvDecodeVerified _ _ => True
  | EvValidateToken _ | EvCallNext _ => False
  end.

(** The requests handed to the rest of the chain. *)
Definition forwarded (tr : list event) : list Request :=
  omap (fun ev => match ev with EvCallNext r => Some r | _ => None end) tr.

(** The verified decode without the audience check. *)
Definition options_without_aud : options :=
  mkOptions true true true true false true.

(** The checks of the verified decode made before the issuer check. *)
Definition options_before_iss : options :=
  mkOptions true true true true false false.

(** The verified decode without the expiration check. *)
Definition options_without_exp : options :=
  mkOptions true false true true true true.

(** [exc.detail["instructions"][name]] for an [HTTPException]. *)
Definition instruction (e : exn) (name : string) : option detail :=
  match e with
  | HTTPException _ d _ => dict_get "instructions" d ≫= dict_get name
  | Exn _ _ => None
  end.

(** The sixteen spellings of [true]. *)
Definition spells_true (s : string) : Prop :=
  exists c1 c2 c3 c4 : ascii,
    s = String c1 (String c2 (String c3 (String c4 EmptyString)))
    /\ (c1 = "t" \/ c1 = "T")%char /\ (c2 = "r" \/ c2 = "R")%char
    /\ (c3 = "u" \/ c3 = "U")%char /\ (c4 = "e" \/ c4 = "E")%char.

End Props.

(* ===================================================================== *)
(** ** Lemmas on the string operations *)
(* ===================================================================== *)

Section SplitLemmas.

Variable sep : ascii.

Lemma split_cons_length c r :
  length (PyStr.split sep (String c r)) =
  if Ascii.eqb c sep then S (length (PyStr.split sep r))
  else length (PyStr.split sep r).
Proof.
  simpl. destruct (Ascii.eqb c sep); [reflexivity|].
  destruct (PyStr.split sep r) eqn:E; [|reflexivity].
  destruct r; simpl in E; [discriminate|].
  destruct (Ascii.eqb a sep); [discriminate|].
  destruct (PyStr.split sep r); discriminate.
Qed.

Lemma split_length_pos s : (1 <= length (PyStr.split sep s))%nat.
Proof.
  induction s as [|c r IH]; [simpl; lia|].
  rewrite split_cons_length. destruct (Ascii.eqb c sep); lia.
Qed.

Lemma split_last_None s :
  PyStr.split_last sep s = None -> length (PyStr.split sep s) = 1%nat.
Proof.
  induction s as [|c r IH]; [reflexivity|].
  intros H. rewrite split_cons_length. simpl in H.
  destruct (PyStr.split_last sep r) as [[a b]|]; [discriminate|].
  destruct (Ascii.eqb c sep); [discriminate|]. now apply IH.
Qed.

Lemma split_last_Some s a b :
  PyStr.split_last sep s = Some (a, b) ->
  length (PyStr.split sep s) = S (length (PyStr.split sep a)).
Proof.
  revert a b. induction s as [|c r IH]; intros a b H; [discriminate|].
  simpl in H. destruct (PyStr.split_last sep r) as [[a' b']|] eqn:E.
  - inversion H; subst. rewrite !split_cons_length, (IH a' b eq_refl).
    destruct (Ascii.eqb c sep); reflexivity.
  - rewrite split_cons_length.
    destruct (Ascii.eqb c sep); [|discriminate].
    inversion H; subst. now rewrite (split_last_None _ E).
Qed.

Lemma split_first_Some s a b :
  PyStr.split_first sep s = Some (a, b) ->
  (2 <= length (PyStr.split sep s))%nat.
Proof.
  revert a b. induction s as [|c r IH]; intros a b H; [discriminate|].
  rewrite split_cons_length. simpl in H.
  destruct (Ascii.eqb c sep).
  - pose proof (split_length_pos r). lia.
  - destruct (PyStr.split_first sep r) as [[a' b']|]; [|discriminate].
    now apply (IH a' b').
Qed.

(** A separator-free string followed by a separator is the first segment. *)
Lemma split_app_sep a b :
  PyStr.contains sep a = false ->
  PyStr.split sep (a +:+ String sep b) = a :: PyStr.split sep b.
Proof.
  induction a as [|c r IH]; simpl; intros H.
  - now rewrite Ascii.eqb_refl.
  - apply orb_false_iff in H as [Hc Hr]. rewrite Hc, (IH Hr). reflexivity.
Qed.

Lemma split_no_sep a :
  PyStr.contains sep a = false -> PyStr.split sep a = [a].
Proof.
  induction a as [|c r IH]; simpl; intros H; [reflexivity|].
  apply orb_false_iff in H as [Hc Hr]. rewrite Hc, (IH Hr). reflexivity.
Qed.

End SplitLemmas.

(** A token with fewer than three dot-separated segments does not load. *)
Lemma load_few_segments W token :
  (length (PyStr.split "." token) < 3)%nat ->
  PyJWT._load W token = PyJWT.err DecodeError "Not enough segments".
Proof.
  intros H. unfold PyJWT._load.
  destruct (PyStr.split_last "." token) as [[a b]|] eqn:E1; [|reflexivity].
  destruct (PyStr.split_first "." a) as [[x y]|] eqn:E2; [|reflexivity].
  apply split_last_Some in E1. apply split_first_Some in E2. lia.
Qed.

(* ===================================================================== *)
(** ** The definitions at work *)
(* ===================================================================== *)

Example fixture_handler : Auth.EntraIDAuth_init Fixture.cfg = inr Fixture.handler.
Proof. vm_compute. reflexivity. Qed.

Example fixture_valid :
  Auth.validate_token Fixture.world Fixture.cfg Fixture.handler "h1.v2.good"
  = ([EvGetSigningKey "h1.v2.good"; EvDecodeUnverified "h1.v2.good";
      EvDecodeVerified "h1.v2.good" "KEY1"],
     inr (Fixture.payload_of Fixture.issuer_v2 2000)).
Proof. vm_compute. reflexivity. Qed.


(* ===================================================================== *)
(** ** The token validator *)
(* ===================================================================== *)

Import PyJWT Auth Props.

(** Unfold one run of [validate_token] down to the library calls. *)
Ltac run_validator :=
  unfold validate_token, validate_token_try, try_except, bind, call, ret,
         raise, trace, outcome in *;
  simpl in *.

(** Case analysis on the outcome of a library call. *)
Ltac on_result r :=
  let E := fresh "E" in destruct r as [?e|?a] eqn:E; simpl in *.

(** The handler always raises, and what it raises is a plain 401. *)
Lemma validate_token_except_raises e :
  validate_token_except e = ([], inl (http401 (detail_of (classify e)))).
Proof.
  destruct e as [c msg|st d hs]; [|reflexivity].
  destruct c; reflexivity.
Qed.

(** Key resolution fails on a token with fewer than three segments. *)
Lemma get_signing_key_few_segments W c token :
  (length (PyStr.split "." token) < 3)%nat ->
  get_signing_key_from_jwt W c token = err DecodeError "Not enough segments".
Proof.
  intros H. unfold get_signing_key_from_jwt, decode_complete. simpl.
  now rewrite (load_few_segments W token H).
Qed.

(** *** Inside the verified decode *)

(** [decode] step by step. *)
Lemma decode_steps W token k algs aud iss opts :
  decode W token k algs aud iss opts =
  if verify_signature opts && bool_decide (algs = [])
  then err DecodeError algorithms_required
  else match _load W token with
       | inl e => inl e
       | inr l =>
         match _check_b64 l with
         | inl e => inl e
         | inr _ =>
           match (if verify_signature opts
                  then _verify_signature W l k algs else inr tt) with
           | inl e => inl e
           | inr _ =>
             match _decode_payload W l with
             | inl e => inl e
             | inr payload =>
               match _validate_claims W payload opts aud iss with
               | inl e => inl e
               | inr _ => inr payload
               end
             end
           end
         end
       end.
Proof.
  unfold decode, decode_complete, res_bind.
  destruct (verify_signature opts && bool_decide (algs = [])); [reflexivity|].
  destruct (_load W token) as [e|l]; [reflexivity|].
  destruct (_check_b64 l) as [e|u]; [reflexivity|].
  destruct (if verify_signature opts then _ else _) as [e|u']; [reflexivity|].
  destruct (_decode_payload W l) as [e|p]; [reflexivity|].
  destruct (_validate_claims W p opts aud iss); reflexivity.
Qed.

Lemma decode_verified_inv W token k aud iss opts payload :
  verify_signature opts = true ->
  decode W token (Some k) ["RS256"] aud iss opts = inr payload ->
  decoded W token k payload
  /\ _validate_claims W payload opts aud iss = inr tt.
Proof.
  intros Hs. rewrite decode_steps, Hs. simpl.
  destruct (_load W token) as [e|l] eqn:El; [discriminate|].
  destruct (_check_b64 l) as [e|[]] eqn:Eb; [discriminate|].
  destruct (_verify_signature W l (Some k) ["RS256"]) as [e|[]] eqn:Es;
    [discriminate|].
  destruct (_decode_payload W l) as [e|p] eqn:Ep; [discriminate|].
  destruct (_validate_claims W p opts aud iss) as [e|[]] eqn:Ec; [discriminate|].
  intros H. inversion H; subst. split; [|assumption].
  now exists l.
Qed.

Lemma decode_verified_intro W token k aud iss opts payload :
  decoded W token k payload ->
  decode W token (Some k) ["RS256"] aud iss opts =
  match _validate_claims W payload opts aud iss with
  | inl e => inl e
  | inr _ => inr payload
  end.
Proof.
  intros (l & Hl & Hb & Hs & Hp). rewrite decode_steps, Hl, Hb, Hp.
  rewrite andb_false_r. destruct (verify_signature opts); [rewrite Hs|];
    reflexivity.
Qed.

(** A token that decodes verified also decodes unverified, to the same claims. *)
Lemma decode_unverified_of_decoded W token k payload :
  decoded W token k payload ->
  decode W token None [] None None options_unverified = inr payload.
Proof.
  intros (l & Hl & Hb & Hs & Hp). rewrite decode_steps, Hl, Hb, Hp. reflexivity.
Qed.

(** Two checks in sequence pass exactly when both pass. *)
Lemma res_seq_ok (a b : res unit) :
  (a ;;; b) = inr tt <-> a = inr tt /\ b = inr tt.
Proof.
  unfold res_bind. destruct a as [e|[]]; split.
  - discriminate.
  - intros [H _]. discriminate.
  - auto.
  - intros [_ H]. exact H.
Qed.

Lemma guarded_ok (flag : bool) (chk : res unit) :
  (if flag then chk else inr tt) = inr tt <-> (flag = true -> chk = inr tt).
Proof.
  destruct flag; split; auto. discriminate.
Qed.

(** Success of the claim checks, check by check. *)
Lemma validate_claims_ok W payload opts aud iss :
  _validate_claims W payload opts aud iss = inr tt <->
  (verify_iat opts = true -> _validate_iat W payload = inr tt)
  /\ (verify_nbf opts = true -> _validate_nbf W payload = inr tt)
  /\ (verify_exp opts = true -> _validate_exp W payload = inr tt)
  /\ (verify_iss opts = true -> _validate_iss payload iss = inr tt)
  /\ (verify_aud opts = true -> _validate_aud payload aud = inr tt).
Proof.
  unfold _validate_claims. rewrite !res_seq_ok, !guarded_ok. reflexivity.
Qed.

(** *** Outcomes of [validate_token] *)

(** Success means that all three calls returned; the claims are those of
    the verified decode. *)
Lemma validate_token_ok_inv W cfg self token cl :
  outcome (validate_token W cfg self token) = inr cl ->
  exists c jwk u,
    jwks_client self = Some c
    /\ get_signing_key_from_jwt W c token = inr jwk
    /\ decode W token None [] None None options_unverified = inr u
    /\ decode_with W cfg self token (key jwk) options_verified = inr cl
    /\ trace (validate_token W cfg self token)
       = [EvGetSigningKey token; EvDecodeUnverified token;
          EvDecodeVerified token (key jwk)].
Proof.
  unfold decode_with. run_validator.
  destruct (jwks_client self) as [c|]; simpl; [|discriminate].
  on_result (get_signing_key_from_jwt W c token).
  { rewrite validate_token_except_raises. discriminate. }
  on_result (decode W token None [] None None options_unverified).
  { rewrite validate_token_except_raises. discriminate. }
  on_result (decode W token (Some (key a)) ["RS256"]
               (Some (TOKEN_AUDIENCE cfg)) (Some (valid_issuers self))
               options_verified).
  { rewrite validate_token_except_raises. discriminate. }
  intros H. exists c, a, a0. repeat split; congruence.
Qed.

(** A run in which the key resolves and the unverified parse returns ends
    as the verified decode ends. *)
Lemma validate_token_run W cfg self c token jwk u :
  jwks_client self = Some c ->
  get_signing_key_from_jwt W c token = inr jwk ->
  decode W token None [] None None options_unverified = inr u ->
  validate_token W cfg self token =
  ([EvGetSigningKey token; EvDecodeUnverified token;
    EvDecodeVerified token (key jwk)],
   match decode_with W cfg self token (key jwk) options_verified with
   | inl e => inl (http401 (detail_of (classify e)))
   | inr cl => inr cl
   end).
Proof.
  intros Hc Hk Hu. unfold decode_with. run_validator.
  rewrite Hc. simpl. rewrite Hk. simpl. rewrite Hu. simpl.
  destruct (decode W token (Some (key jwk)) ["RS256"] _ _ _); simpl;
    [rewrite validate_token_except_raises|]; reflexivity.
Qed.

(** A run in which key resolution raises stops there. *)
Lemma validate_token_key_failure W cfg self c token e :
  jwks_client self = Some c ->
  get_signing_key_from_jwt W c token = inl e ->
  validate_token W cfg self token =
  ([EvGetSigningKey token], inl (http401 (detail_of (classify e)))).
Proof.
  intros Hc Hk. run_validator. rewrite Hc. simpl. rewrite Hk. simpl.
  rewrite validate_token_except_raises. reflexivity.
Qed.

(** A run in which the unverified parse raises stops there. *)
Lemma validate_token_parse_failure W cfg self c token jwk e :
  jwks_client self = Some c ->
  get_signing_key_from_jwt W c token = inr jwk ->
  decode W token None [] None None options_unverified = inl e ->
  validate_token W cfg self token =
  ([EvGetSigningKey token; EvDecodeUnverified token],
   inl (http401 (detail_of (classify e)))).
Proof.
  intros Hc Hk Hu. run_validator. rewrite Hc. simpl. rewrite Hk. simpl.
  rewrite Hu. simpl. rewrite validate_token_except_raises. reflexivity.
Qed.

(** Every failure is a plain 401 named after the [except] clause taken. *)
Lemma validate_token_failure W cfg self token x :
  outcome (validate_token W cfg self token) = inl x ->
  exists f, x = http401 (detail_of f).
Proof.
  run_validator.
  destruct (jwks_client self) as [c|]; simpl.
  - on_result (get_signing_key_from_jwt W c token).
    { rewrite validate_token_except_raises. simpl. intros H.
      inversion H. eauto. }
    on_result (decode W token None [] None None options_unverified).
    { rewrite validate_token_except_raises. simpl. intros H.
      inversion H. eauto. }
    on_result (decode W token (Some (key a)) ["RS256"]
                 (Some (TOKEN_AUDIENCE cfg)) (Some (valid_issuers self))
                 options_verified).
    { rewrite validate_token_except_raises. simpl. intros H.
      inversion H. eauto. }
    discriminate.
  - intros H. inversion H. now exists ValidationFailed.
Qed.

(** The names of the failures are pairwise different. *)
Lemma detail_of_inj f1 f2 : detail_of f1 = detail_of f2 -> f1 = f2.
Proof.
  destruct f1, f2; intros H; cbv in H; try reflexivity; try discriminate.
  inversion H. reflexivity.
Qed.

(** C1 (as amended): a handler with a key client runs [validate_token]
    on every token as follows.  It first asks the key client for the
    token's signing key; if that call raises, the run ends there with the
    401 of that exception.  Otherwise it parses the claims without
    verification; if that raises, the run ends there.  Otherwise it makes
    the verified decode with the resolved key, and the run ends as that
    decode ends.  So the calls are made in the order key resolution,
    unverified parse, verified decode, each exactly when the ones before
    it returned, and claims are returned only by the verified decode.  A
    token with fewer than three dot-separated segments is rejected by the
    first call with "Invalid token: Not enough segments".  A handler
    without a key client makes no call and fails with "Token validation
    failed". *)
Theorem validate_token_order (W : World) (cfg : Config) (self : EntraIDAuth)
    (token : string) :
  let m := validate_token W cfg self token in
  (exists k, trace m `prefix_of`
     [EvGetSigningKey token; EvDecodeUnverified token; EvDecodeVerified token k])
  /\ (EvDecodeUnverified token ∈ trace m ->
      exists c jwk, jwks_client self = Some c
        /\ get_signing_key_from_jwt W c token = inr jwk)
  /\ (forall k, EvDecodeVerified token k ∈ trace m ->
      exists c jwk u, jwks_client self = Some c
        /\ get_signing_key_from_jwt W c token = inr jwk /\ key jwk = k
        /\ decode W token None [] None None options_unverified = inr u)
  /\ (forall cl, outcome m = inr cl ->
      exists k, trace m = [EvGetSigningKey token; EvDecodeUnverified token;
                           EvDecodeVerified token k]
        /\ decode_with W cfg self token k options_verified = inr cl)
  /\ (forall c, jwks_client self = Some c ->
      (length (PyStr.split "." token) < 3)%nat ->
      m = ([EvGetSigningKey token],
           inl (http401 "Invalid token: Not enough segments")))
  /\ (jwks_client self = None ->
      m = ([], inl (http401 "Token validation failed")))
  /\ (forall c e, jwks_client self = Some c ->
      get_signing_key_from_jwt W c token = inl e ->
      m = ([EvGetSigningKey token], inl (http401 (detail_of (classify e)))))
  /\ (forall c jwk e, jwks_client self = Some c ->
      get_signing_key_from_jwt W c token = inr jwk ->
      decode W token None [] None None options_unverified = inl e ->
      m = ([EvGetSigningKey token; EvDecodeUnverified token],
           inl (http401 (detail_of (classify e)))))
  /\ (forall c jwk u, jwks_client self = Some c ->
      get_signing_key_from_jwt W c token = inr jwk ->
      decode W token None [] None None options_unverified = inr u ->
      m = ([EvGetSigningKey token; EvDecodeUnverified token;
            EvDecodeVerified token (key jwk)],
           match decode_with W cfg self token (key jwk) options_verified with
           | inl e => inl (http401 (detail_of (classify e)))
           | inr cl => inr cl
           end)).
Proof.
  intros m. subst m.
  split; [|split; [|split; [|split; [|split; [|split; [|split; [|split]]]]]]].
  - run_validator. destruct (jwks_client self) as [c|]; simpl.
    { on_result (get_signing_key_from_jwt W c token).
      - exists "". rewrite validate_token_except_raises. simpl.
        now exists [EvDecodeUnverified token; EvDecodeVerified token ""].
      - exists (key a).
        on_result (decode W token None [] None None options_unverified).
        + rewrite validate_token_except_raises. simpl.
          now exists [EvDecodeVerified token (key a)].
        + on_result (decode W token (Some (key a)) ["RS256"]
                       (Some (TOKEN_AUDIENCE cfg)) (Some (valid_issuers self))
                       options_verified).
          * rewrite validate_token_except_raises. simpl. now exists [].
          * now exists []. }
    exists "". eexists. reflexivity.
  - run_validator. destruct (jwks_client self) as [c|]; simpl.
    + on_result (get_signing_key_from_jwt W c token).
      * rewrite validate_token_except_raises. simpl. intros H.
        apply list_elem_of_singleton in H. discriminate.
      * intros _. exists c, a. split; [reflexivity|assumption].
    + intros H. now apply not_elem_of_nil in H.
  - intros k. run_validator. destruct (jwks_client self) as [c|]; simpl.
    + on_result (get_signing_key_from_jwt W c token).
      * rewrite validate_token_except_raises. simpl. intros H.
        apply list_elem_of_singleton in H. discriminate.
      * on_result (decode W token None [] None None options_unverified).
        { rewrite validate_token_except_raises. simpl. intros H.
          apply elem_of_cons in H as [H|H]; [discriminate|].
          apply list_elem_of_singleton in H. discriminate. }
        intros H. exists c, a, a0.
        split; [reflexivity|]. split; [assumption|]. split; [|reflexivity].
        assert (Hin : EvDecodeVerified token k ∈
                  [EvGetSigningKey token; EvDecodeUnverified token;
                   EvDecodeVerified token (key a)]).
        { revert H.
          destruct (decode W token (Some (key a)) ["RS256"] _ _ _); simpl;
            [rewrite validate_token_except_raises|]; simpl; auto. }
        apply elem_of_cons in Hin as [Hin|Hin]; [discriminate|].
        apply elem_of_cons in Hin as [Hin|Hin]; [discriminate|].
        apply list_elem_of_singleton in Hin. congruence.
    + intros H. now apply not_elem_of_nil in H.
  - intros cl. unfold decode_with. run_validator.
    destruct (jwks_client self) as [c|]; simpl; [|discriminate].
    on_result (get_signing_key_from_jwt W c token).
    { rewrite validate_token_except_raises. discriminate. }
    on_result (decode W token None [] None None options_unverified).
    { rewrite validate_token_except_raises. discriminate. }
    on_result (decode W token (Some (key a)) ["RS256"]
                 (Some (TOKEN_AUDIENCE cfg)) (Some (valid_issuers self))
                 options_verified).
    { rewrite validate_token_except_raises. discriminate. }
    intros H. exists (key a). split; [reflexivity|]. congruence.
  - intros c Hc Hseg. run_validator. rewrite Hc. simpl.
    now rewrite (get_signing_key_few_segments W c token Hseg).
  - intros Hc. run_validator. now rewrite Hc.
  - intros c e. apply validate_token_key_failure.
  - intros c jwk e. apply validate_token_parse_failure.
  - intros c jwk u. apply validate_token_run.
Qed.

Lemma validate_token_order_witness :
  validate_token Fixture.world Fixture.cfg Fixture.handler "a.b"
  = ([EvGetSigningKey "a.b"], inl (http401 "Invalid token: Not enough segments")).
Proof.
  refine (proj1 (proj2 (proj2 (proj2 (proj2
    (validate_token_order Fixture.world Fixture.cfg Fixture.handler "a.b")))))
    _ eq_refl _).
  vm_compute. lia.
Defined.

(** C1 (as stated) fails: on a valid token the first call is key
    resolution and the unverified parse of the claims comes second; when
    the key id is unknown the claims are never parsed; and the empty
    string is handed to key resolution like any other token. *)
Lemma validate_token_order_counterexample :
  trace (validate_token Fixture.world Fixture.cfg Fixture.handler "h1.v2.good")
  = [EvGetSigningKey "h1.v2.good"; EvDecodeUnverified "h1.v2.good";
     EvDecodeVerified "h1.v2.good" "KEY1"]
  /\ ~ parse_before_key
       (trace (validate_token Fixture.world Fixture.cfg Fixture.handler "h1.v2.good"))
  /\ trace (validate_token Fixture.world Fixture.cfg Fixture.handler "h9.v2.good")
     = [EvGetSigningKey "h9.v2.good"]
  /\ trace (validate_token Fixture.world Fixture.cfg Fixture.handler "")
     = [EvGetSigningKey ""].
Proof.
  assert (Ht : trace (validate_token Fixture.world Fixture.cfg Fixture.handler
                        "h1.v2.good")
               = [EvGetSigningKey "h1.v2.good"; EvDecodeUnverified "h1.v2.good";
                  EvDecodeVerified "h1.v2.good" "KEY1"])
    by (vm_compute; reflexivity).
  split; [exact Ht|]. split; [|split; vm_compute; reflexivity].
  rewrite Ht. intros H.
  destruct (H 0%nat "h1.v2.good" eq_refl) as [j [Hj _]]. lia.
Qed.

(** C2 (as amended): a token whose signing key resolves and which passes
    the checks made before the expiration check (it loads, its signature
    verifies under RS256, its payload is a JSON object, its iat and nbf
    claims are acceptable) and whose exp claim is not after the current
    time is rejected with 401 "Token has expired". *)
Theorem expired_token_rejected (W : World) (cfg : Config) (self : EntraIDAuth)
    (c : PyJWKClient) (token : string) (jwk : JWK) (payload : claims)
    (v : value) (exp : Z) :
  jwks_client self = Some c ->
  get_signing_key_from_jwt W c token = inr jwk ->
  decode_with W cfg self token (key jwk) options_before_exp = inr payload ->
  payload !! "exp" = Some v ->
  py_int W v = IntOk exp ->
  exp <= now W ->
  outcome (validate_token W cfg self token) = inl (http401 "Token has expired").
Proof.
  intros Hc Hk Hd Hexp Hint Hle.
  apply decode_verified_inv in Hd as [Hdec Hcl]; [|reflexivity].
  apply validate_claims_ok in Hcl as (Hiat & Hnbf & _).
  rewrite (validate_token_run W cfg self c token jwk payload Hc Hk
             (decode_unverified_of_decoded W token (key jwk) payload Hdec)).
  unfold decode_with, outcome. simpl.
  rewrite (decode_verified_intro W token (key jwk) _ _ _ payload Hdec).
  unfold _validate_claims. simpl.
  rewrite (Hiat eq_refl), (Hnbf eq_refl). simpl.
  unfold _validate_exp. rewrite Hexp, Hint.
  apply Z.leb_le in Hle. rewrite Hle. reflexivity.
Qed.

Lemma expired_token_rejected_witness :
  outcome (validate_token Fixture.world Fixture.cfg Fixture.handler "h1.old.good")
  = inl (http401 "Token has expired").
Proof.
  refine (expired_token_rejected Fixture.world Fixture.cfg Fixture.handler
            (mkClient "https://login.microsoftonline.com/t1/discovery/v2.0/keys")
            "h1.old.good" (mkJWK (Some "k1") (Some "sig") "KEY1")
            (Fixture.payload_of Fixture.issuer_v2 500) (VInt 500) 500
            _ _ _ _ _ _);
    vm_compute; try reflexivity.
  discriminate.
Defined.

(** C2 (as stated) fails: an expired token whose signature does not verify
    is rejected as an invalid token, and an expired token whose key id is
    unknown is rejected with the generic failure; neither is reported as
    expired. *)
Lemma expired_token_counterexample :
  decode Fixture.world "h1.old.bad" None [] None None options_unverified
  = inr (Fixture.payload_of Fixture.issuer_v2 500)
  /\ Fixture.payload_of Fixture.issuer_v2 500 !! "exp" = Some (VInt 500)
  /\ 500 < now Fixture.world
  /\ outcome (validate_token Fixture.world Fixture.cfg Fixture.handler "h1.old.bad")
     = inl (http401 "Invalid token: Signature verification failed")
  /\ outcome (validate_token Fixture.world Fixture.cfg Fixture.handler "h9.old.good")
     = inl (http401 "Token validation failed")
  /\ outcome (validate_token Fixture.world Fixture.cfg Fixture.handler "h1.old.bad")
     <> inl (http401 "Token has expired")
  /\ outcome (validate_token Fixture.world Fixture.cfg Fixture.handler "h9.old.good")
     <> inl (http401 "Token has expired").
Proof.
  repeat split; try (vm_compute; reflexivity); vm_compute; discriminate.
Qed.

(** The issuer check of the verified decode passes exactly on a string
    claim equal to one of the two tenant-issuer forms. *)
Lemma validate_iss_ok self payload :
  _validate_iss payload (Some (valid_issuers self)) = inr tt <->
  exists iss, payload !! "iss" = Some (VStr iss)
    /\ (iss = issuer_v1 (tenant_id self) \/ iss = issuer_v2 (tenant_id self)).
Proof.
  unfold _validate_iss, valid_issuers.
  fold (issuer_v1 (tenant_id self)). fold (issuer_v2 (tenant_id self)).
  split.
  - destruct (payload !! "iss") as [[| | |iss| |]|]; try discriminate.
    case_bool_decide as Hin; [|discriminate]. intros _. exists iss.
    split; [reflexivity|].
    apply elem_of_cons in Hin as [Hin|Hin]; [now left|].
    apply list_elem_of_singleton in Hin. now right.
  - intros (iss & Hiss & Hor). rewrite Hiss.
    rewrite bool_decide_eq_true_2; [reflexivity|].
    destruct Hor as [->| ->].
    + apply list_elem_of_here.
    + apply list_elem_of_further, list_elem_of_here.
Qed.

(** C3 (as amended): the issuers accepted during validation are fixed by
    the tenant id alone, as its v1.0 and v2.0 issuer forms.  The issuer
    input is read at startup, with a default derived from the tenant id,
    but neither the handler nor [validate_token] consults it: changing it
    changes no outcome, and every accepted token carries one of the two
    tenant forms. *)
Theorem accepted_issuers_from_tenant :
  (forall cfg self, EntraIDAuth_init cfg = inr self ->
     valid_issuers self
     = [issuer_v1 (AZURE_TENANT_ID cfg); issuer_v2 (AZURE_TENANT_ID cfg)])
  /\ (forall env, env !! "TOKEN_ISSUER" = None ->
        TOKEN_ISSUER (load_config env)
        = issuer_v2 (AZURE_TENANT_ID (load_config env)))
  /\ (forall W cfg iss self token,
        EntraIDAuth_init (with_issuer cfg iss) = EntraIDAuth_init cfg
        /\ validate_token W (with_issuer cfg iss) self token
           = validate_token W cfg self token)
  /\ (forall W cfg self token cl,
        outcome (validate_token W cfg self token) = inr cl ->
        exists iss, cl !! "iss" = Some (VStr iss)
          /\ (iss = issuer_v1 (tenant_id self)
              \/ iss = issuer_v2 (tenant_id self))).
Proof.
  split; [|split; [|split]].
  - intros cfg self. unfold EntraIDAuth_init, res_bind.
    destruct (ENABLE_AUTH cfg);
      [destruct (_validate_config _ _); [discriminate|]|];
      intros H; inversion H; reflexivity.
  - intros env H. unfold load_config, getenv_default. simpl. rewrite H.
    reflexivity.
  - intros W cfg iss self token. split; reflexivity.
  - intros W cfg self token cl H.
    apply validate_token_ok_inv in H as (c & jwk & u & _ & _ & _ & Hd & _).
    apply decode_verified_inv in Hd as [_ Hcl]; [|reflexivity].
    apply validate_claims_ok in Hcl as (_ & _ & _ & Hiss & _).
    apply validate_iss_ok, Hiss. reflexivity.
Qed.

Lemma accepted_issuers_from_tenant_witness :
  valid_issuers Fixture.handler
  = ["https://sts.windows.net/t1/"; "https://login.microsoftonline.com/t1/v2.0"]
  /\ TOKEN_ISSUER (load_config Fixture.env)
     = "https://login.microsoftonline.com/t1/v2.0"
  /\ exists iss,
       Fixture.payload_of Fixture.issuer_v1 2000 !! "iss" = Some (VStr iss)
       /\ (iss = issuer_v1 (tenant_id Fixture.handler)
           \/ iss = issuer_v2 (tenant_id Fixture.handler)).
Proof.
  destruct accepted_issuers_from_tenant as (H1 & H2 & _ & H4).
  split; [|split].
  - exact (H1 Fixture.cfg Fixture.handler ltac:(vm_compute; reflexivity)).
  - exact (H2 Fixture.env ltac:(vm_compute; reflexivity)).
  - apply (H4 Fixture.world Fixture.cfg Fixture.handler "h1.v1.good").
    vm_compute. reflexivity.
Defined.

(** C3 (as stated) fails: with the issuer input set to
    [https://issuer.example/], a token that passes every other check and
    whose issuer claim is exactly that value is rejected, while a token
    with the tenant's v2.0 issuer, which the input does not list, is
    accepted. *)
Lemma issuer_input_counterexample :
  TOKEN_ISSUER Fixture.cfg_issuer = "https://issuer.example/"
  /\ EntraIDAuth_init Fixture.cfg_issuer = inr Fixture.handler
  /\ decode_with Fixture.world Fixture.cfg_issuer Fixture.handler
       "h1.other.good" "KEY1" options_without_iss
     = inr (Fixture.payload_of "https://issuer.example/" 2000)
  /\ Fixture.payload_of "https://issuer.example/" 2000 !! "iss"
     = Some (VStr (TOKEN_ISSUER Fixture.cfg_issuer))
  /\ outcome (validate_token Fixture.world Fixture.cfg_issuer Fixture.handler
                "h1.other.good")
     = inl (http401 "Invalid token issuer")
  /\ outcome (validate_token Fixture.world Fixture.cfg_issuer Fixture.handler
                "h1.v2.good")
     = inr (Fixture.payload_of Fixture.issuer_v2 2000)
  /\ Fixture.issuer_v2 <> TOKEN_ISSUER Fixture.cfg_issuer.
Proof.
  repeat split; try (vm_compute; reflexivity). vm_compute. discriminate.
Qed.

(** C4: a token whose signing key resolves, which passes every check of
    the verified decode other than the issuer check, and whose issuer
    claim is the v1.0 or the v2.0 form of the tenant's issuer, is
    accepted: [validate_token] returns its decoded claims. *)
Theorem tenant_issuer_accepted (W : World) (cfg : Config) (self : EntraIDAuth)
    (c : PyJWKClient) (token : string) (jwk : JWK) (payload : claims)
    (iss : string) :
  jwks_client self = Some c ->
  get_signing_key_from_jwt W c token = inr jwk ->
  decode_with W cfg self token (key jwk) options_without_iss = inr payload ->
  payload !! "iss" = Some (VStr iss) ->
  iss = "https://sts.windows.net/" +:+ PyStr.fmt (tenant_id self) +:+ "/"
  \/ iss = "https://login.microsoftonline.com/" +:+ PyStr.fmt (tenant_id self)
           +:+ "/v2.0" ->
  outcome (validate_token W cfg self token) = inr payload.
Proof.
  intros Hc Hk Hd Hiss Hor.
  apply decode_verified_inv in Hd as [Hdec Hcl]; [|reflexivity].
  apply validate_claims_ok in Hcl as (Hiat & Hnbf & Hexp & _ & Haud).
  rewrite (validate_token_run W cfg self c token jwk payload Hc Hk
             (decode_unverified_of_decoded W token (key jwk) payload Hdec)).
  unfold decode_with, outcome. simpl.
  rewrite (decode_verified_intro W token (key jwk) _ _ _ payload Hdec).
  assert (Hall : _validate_claims W payload options_verified
                   (Some (TOKEN_AUDIENCE cfg)) (Some (valid_issuers self))
                 = inr tt).
  { apply validate_claims_ok. repeat split; intros _; auto.
    apply validate_iss_ok. exists iss. split; [assumption|].
    unfold issuer_v1, issuer_v2. assumption. }
  now rewrite Hall.
Qed.

Lemma tenant_issuer_accepted_witness :
  outcome (validate_token Fixture.world Fixture.cfg Fixture.handler "h1.v1.good")
  = inr (Fixture.payload_of Fixture.issuer_v1 2000)
  /\ outcome (validate_token Fixture.world Fixture.cfg Fixture.handler "h1.v2.good")
     = inr (Fixture.payload_of Fixture.issuer_v2 2000).
Proof.
  split.
  - refine (tenant_issuer_accepted Fixture.world Fixture.cfg Fixture.handler
              (mkClient "https://login.microsoftonline.com/t1/discovery/v2.0/keys")
              "h1.v1.good" (mkJWK (Some "k1") (Some "sig") "KEY1")
              (Fixture.payload_of Fixture.issuer_v1 2000) Fixture.issuer_v1
              _ _ _ _ _);
      try (vm_compute; reflexivity).
    left. vm_compute. reflexivity.
  - refine (tenant_issuer_accepted Fixture.world Fixture.cfg Fixture.handler
              (mkClient "https://login.microsoftonline.com/t1/discovery/v2.0/keys")
              "h1.v2.good" (mkJWK (Some "k1") (Some "sig") "KEY1")
              (Fixture.payload_of Fixture.issuer_v2 2000) Fixture.issuer_v2
              _ _ _ _ _);
      try (vm_compute; reflexivity).
    right. vm_compute. reflexivity.
Defined.

(** C5: [validate_token] returns claims only when the signing key was
    resolved, the signature verified under RS256 and the expiration,
    audience and issuer checks passed on those very claims.  Every other
    run ends in a 401: whichever step raises, the run ends in the 401
    named after the exception raised, never in claims, and the names of
    different failures differ. *)
Theorem validate_token_fail_closed (W : World) (cfg : Config)
    (self : EntraIDAuth) (token : string) :
  let m := validate_token W cfg self token in
  (forall cl, outcome m = inr cl ->
     exists c jwk,
       jwks_client self = Some c
       /\ get_signing_key_from_jwt W c token = inr jwk
       /\ decoded W token (key jwk) cl
       /\ _validate_exp W cl = inr tt
       /\ _validate_aud cl (Some (TOKEN_AUDIENCE cfg)) = inr tt
       /\ _validate_iss cl (Some (valid_issuers self)) = inr tt)
  /\ ((exists cl, outcome m = inr cl)
      \/ (exists f, outcome m = inl (http401 (detail_of f))))
  /\ (forall f1 f2, detail_of f1 = detail_of f2 -> f1 = f2)
  /\ (jwks_client self = None ->
      outcome m = inl (http401 (detail_of ValidationFailed)))
  /\ (forall c e,
        jwks_client self = Some c ->
        get_signing_key_from_jwt W c token = inl e ->
        outcome m = inl (http401 (detail_of (classify e))))
  /\ (forall c jwk e,
        jwks_client self = Some c ->
        get_signing_key_from_jwt W c token = inr jwk ->
        decode W token None [] None None options_unverified = inl e ->
        outcome m = inl (http401 (detail_of (classify e))))
  /\ (forall c jwk u e,
        jwks_client self = Some c ->
        get_signing_key_from_jwt W c token = inr jwk ->
        decode W token None [] None None options_unverified = inr u ->
        decode_with W cfg self token (key jwk) options_verified = inl e ->
        outcome m = inl (http401 (detail_of (classify e)))).
Proof.
  intros m. subst m. split; [|split; [|split; [|split; [|split; [|split]]]]].
  - intros cl H.
    apply validate_token_ok_inv in H as (c & jwk & u & Hc & Hk & _ & Hd & _).
    apply decode_verified_inv in Hd as [Hdec Hcl]; [|reflexivity].
    apply validate_claims_ok in Hcl as (_ & _ & Hexp & Hiss & Haud).
    exists c, jwk. repeat split; auto.
  - destruct (outcome (validate_token W cfg self token)) as [x|cl] eqn:E.
    + right. apply validate_token_failure in E as [f ->]. now exists f.
    + left. now exists cl.
  - exact detail_of_inj.
  - intros Hc. run_validator. now rewrite Hc.
  - intros c e Hc Hk.
    now rewrite (validate_token_key_failure W cfg self c token e Hc Hk).
  - intros c jwk e Hc Hk Hu.
    now rewrite (validate_token_parse_failure W cfg self c token jwk e Hc Hk Hu).
  - intros c jwk u e Hc Hk Hu Hd.
    rewrite (validate_token_run W cfg self c token jwk u Hc Hk Hu).
    unfold outcome. simpl. now rewrite Hd.
Qed.

Lemma validate_token_fail_closed_witness :
  exists c jwk,
    jwks_client Fixture.handler = Some c
    /\ get_signing_key_from_jwt Fixture.world c "h1.v2.good" = inr jwk
    /\ decoded Fixture.world "h1.v2.good" (key jwk)
         (Fixture.payload_of Fixture.issuer_v2 2000)
    /\ _validate_exp Fixture.world (Fixture.payload_of Fixture.issuer_v2 2000)
       = inr tt
    /\ _validate_aud (Fixture.payload_of Fixture.issuer_v2 2000)
         (Some (TOKEN_AUDIENCE Fixture.cfg)) = inr tt
    /\ _validate_iss (Fixture.payload_of Fixture.issuer_v2 2000)
         (Some (valid_issuers Fixture.handler)) = inr tt.
Proof.
  apply (proj1 (validate_token_fail_closed Fixture.world Fixture.cfg
                  Fixture.handler "h1.v2.good")).
  vm_compute. reflexivity.
Defined.

(* ===================================================================== *)
(** ** The gate *)
(* ===================================================================== *)

Lemma validate_token_trace_library W cfg self token :
  Forall library_event (trace (validate_token W cfg self token)).
Proof.
  run_validator. destruct (jwks_client self) as [c|]; simpl; [|constructor].
  on_result (get_signing_key_from_jwt W c token).
  { rewrite validate_token_except_raises. simpl. repeat constructor. }
  on_result (decode W token None [] None None options_unverified).
  { rewrite validate_token_except_raises. simpl. repeat constructor. }
  on_result (decode W token (Some (key a)) ["RS256"]
               (Some (TOKEN_AUDIENCE cfg)) (Some (valid_issuers self))
               options_verified).
  { rewrite validate_token_except_raises. simpl. repeat constructor. }
  repeat constructor.
Qed.

Lemma forwarded_library tr : Forall library_event tr -> forwarded tr = [].
Proof.
  induction 1 as [|ev tr Hev _ IH]; [reflexivity|].
  unfold forwarded in *. simpl. destruct ev; simpl in *; tauto.
Qed.

Lemma prefix_app (p s : string) :
  String.prefix p s = true -> exists rest, s = p +:+ rest.
Proof.
  revert s. induction p as [|a p IH]; intros s H.
  - now exists s.
  - destruct s as [|b s]; simpl in H; [discriminate|].
    destruct (ascii_dec a b) as [->|]; [|discriminate].
    destruct (IH s H) as [rest ->]. now exists rest.
Qed.

(** After the scheme, the header splits into ["Bearer"] and the segments
    of what follows the first space. *)
Lemma split_bearer rest :
  PyStr.split " " ("Bearer " +:+ rest) = "Bearer" :: PyStr.split " " rest.
Proof.
  change ("Bearer " +:+ rest) with ("Bearer" +:+ String " " rest).
  now apply split_app_sep.
Qed.

Lemma bearer_second_segment h :
  PyStr.startswith h "Bearer " = true ->
  exists rest token,
    h = "Bearer " +:+ rest
    /\ head (PyStr.split " " rest) = Some token
    /\ PyStr.split " " h !! 1%nat = Some token.
Proof.
  intros H. apply prefix_app in H as [rest ->]. exists rest.
  rewrite split_bearer. simpl.
  pose proof (split_length_pos " " rest) as Hlen.
  destruct (PyStr.split " " rest) as [|token segs]; simpl in *; [lia|].
  exists token. auto.
Qed.

Section GateLemmas.

Context {Response : Type}.
Variable W : World.
Variable cfg : Config.
Variable auth_handler : EntraIDAuth.
Variable self : AuthMiddleware.
Variable call_next : Request -> res Response.

(** [authenticate] stores the claims of a successful validation and lets
    the validator's 401 through unchanged. *)
Lemma authenticate_run request token :
  authenticate W cfg auth_handler request token =
  (EvValidateToken token :: trace (validate_token W cfg auth_handler token),
   match outcome (validate_token W cfg auth_handler token) with
   | inl e => inl e
   | inr cl => inr (set_state_user request cl)
   end).
Proof.
  unfold authenticate, try_except, bind, call, ret, raise, trace, outcome.
  destruct (validate_token W cfg auth_handler token) as [t [x|cl]] eqn:E;
    simpl.
  - assert (Hx : outcome (validate_token W cfg auth_handler token) = inl x)
      by (now rewrite E).
    apply validate_token_failure in Hx as [f ->]. simpl.
    now rewrite app_nil_r.
  - now rewrite app_nil_r.
Qed.

(** The run of the gate on a request that reaches token extraction. *)
Lemma gate_bearer_run request h token :
  is_excluded self request = false ->
  ENABLE_AUTH cfg = true ->
  headers_get "Authorization" request = Some h ->
  PyStr.startswith h "Bearer " = true ->
  PyStr.split " " h !! 1%nat = Some token ->
  AuthMiddleware_call W cfg auth_handler self request call_next =
  match outcome (validate_token W cfg auth_handler token) with
  | inl e =>
      (EvValidateToken token :: trace (validate_token W cfg auth_handler token),
       inl e)
  | inr cl =>
      (EvValidateToken token :: trace (validate_token W cfg auth_handler token)
         ++ [EvCallNext (set_state_user request cl)],
       call_next (set_state_user request cl))
  end.
Proof.
  intros Hex Hen Hh Hp Htok.
  assert (Hbad : bad_authorization (Some h) = false).
  { unfold bad_authorization. rewrite Hp.
    destruct h; [discriminate|reflexivity]. }
  unfold AuthMiddleware_call. cbv zeta.
  rewrite Hex, Hen, Hh, Hbad. cbn [negb default from_option id].
  rewrite Htok, authenticate_run.
  unfold bind, call. simpl.
  destruct (outcome (validate_token W cfg auth_handler token)); reflexivity.
Qed.

End GateLemmas.

(** C6: a request whose path starts with one of the gate's excluded
    prefixes is handed to the rest of the chain unchanged and at once:
    the only call the gate makes is [call_next], whatever the headers are;
    the validator is not invoked and no token is parsed. *)
Theorem excluded_path_forwarded {Response : Type} (W : World) (cfg : Config)
    (auth_handler : EntraIDAuth) (self : AuthMiddleware) (request : Request)
    (call_next : Request -> res Response) (p : string) :
  p ∈ excluded_paths self ->
  PyStr.startswith (url_path request) p = true ->
  AuthMiddleware_call W cfg auth_handler self request call_next
  = ([EvCallNext request], call_next request)
  /\ invokes_validator
       (trace (AuthMiddleware_call W cfg auth_handler self request call_next))
     = false.
Proof.
  intros Hin Hp.
  assert (Hex : is_excluded self request = true).
  { unfold is_excluded. apply existsb_exists. exists p.
    split; [now apply list_elem_of_In|assumption]. }
  unfold AuthMiddleware_call. rewrite Hex. split; reflexivity.
Qed.

Lemma excluded_path_forwarded_witness :
  AuthMiddleware_call Fixture.world Fixture.cfg Fixture.handler
    Main.auth_middleware (Fixture.request_of "/health" []) Fixture.echo_route
  = ([EvCallNext (Fixture.request_of "/health" [])], inr None).
Proof.
  refine (proj1 (excluded_path_forwarded Fixture.world Fixture.cfg
            Fixture.handler Main.auth_middleware
            (Fixture.request_of "/health" []) Fixture.echo_route "/health" _ _)).
  - apply list_elem_of_here.
  - reflexivity.
Defined.

(** C7 (as amended): while authentication is enabled, a request to a path
    outside the excluded prefixes whose Authorization header is absent or
    does not start with "Bearer " is rejected before any call is made:
    the gate raises a 401 whose detail carries an [instructions] object
    with the token endpoint, the required scope and a usage example, and
    whose headers are WWW-Authenticate: Bearer. *)
Theorem missing_bearer_rejected {Response : Type} (W : World) (cfg : Config)
    (auth_handler : EntraIDAuth) (self : AuthMiddleware) (request : Request)
    (call_next : Request -> res Response) :
  ENABLE_AUTH cfg = true ->
  is_excluded self request = false ->
  (headers_get "Authorization" request = None
   \/ exists h, headers_get "Authorization" request = Some h
        /\ PyStr.startswith h "Bearer " = false) ->
  exists body instructions,
    AuthMiddleware_call W cfg auth_handler self request call_next
    = ([], inl (HTTPException 401 body (Some [("WWW-Authenticate", "Bearer")])))
    /\ dict_get "instructions" body = Some instructions
    /\ dict_get "token_endpoint" instructions
       = Some (DStr ("https://login.microsoftonline.com/"
                     +:+ PyStr.fmt (AZURE_TENANT_ID cfg) +:+ "/oauth2/v2.0/token"))
    /\ dict_get "required_scopes" instructions
       = Some (DStr ("api://" +:+ PyStr.fmt (AZURE_CLIENT_ID cfg) +:+ "/user_read"))
    /\ dict_get "usage" instructions
       = Some (DStr "Include the token in the Authorization header as: Bearer <your_access_token>").
Proof.
  intros Hen Hex Hh.
  assert (Hbad : bad_authorization (headers_get "Authorization" request) = true).
  { destruct Hh as [->|(h & -> & Hp)]; [reflexivity|].
    unfold bad_authorization. rewrite Hp. apply orb_true_r. }
  unfold AuthMiddleware_call. cbv zeta. rewrite Hex, Hen, Hbad.
  cbn [negb]. unfold raise, missing_authorization.
  eexists. eexists. split; [reflexivity|]. repeat split; reflexivity.
Qed.

Lemma missing_bearer_rejected_witness :
  exists body instructions,
    AuthMiddleware_call Fixture.world Fixture.cfg Fixture.handler
      Main.auth_middleware
      (Fixture.request_of "/me" [("authorization", "Token abc")])
      Fixture.echo_route
    = ([], inl (HTTPException 401 body (Some [("WWW-Authenticate", "Bearer")])))
    /\ dict_get "instructions" body = Some instructions
    /\ dict_get "token_endpoint" instructions
       = Some (DStr "https://login.microsoftonline.com/t1/oauth2/v2.0/token")
    /\ dict_get "required_scopes" instructions
       = Some (DStr "api://c1/user_read")
    /\ dict_get "usage" instructions
       = Some (DStr "Include the token in the Authorization header as: Bearer <your_access_token>").
Proof.
  refine (missing_bearer_rejected Fixture.world Fixture.cfg Fixture.handler
            Main.auth_middleware
            (Fixture.request_of "/me" [("authorization", "Token abc")])
            Fixture.echo_route _ _ _).
  - reflexivity.
  - reflexivity.
  - right. exists "Token abc". split; reflexivity.
Defined.

(** C7 (as stated) fails: with authentication switched off, a request to
    a path outside the excluded prefixes that carries no Authorization
    header, or one with the wrong scheme, is forwarded, not rejected. *)
Lemma missing_bearer_counterexample :
  ENABLE_AUTH Fixture.cfg_off = false
  /\ is_excluded Main.auth_middleware (Fixture.request_of "/me" []) = false
  /\ headers_get "Authorization" (Fixture.request_of "/me" []) = None
  /\ AuthMiddleware_call Fixture.world Fixture.cfg_off Fixture.handler
       Main.auth_middleware (Fixture.request_of "/me" []) Fixture.echo_route
     = ([EvCallNext (Fixture.request_of "/me" [])], inr None)
  /\ AuthMiddleware_call Fixture.world Fixture.cfg_off Fixture.handler
       Main.auth_middleware
       (Fixture.request_of "/me" [("authorization", "Token abc")])
       Fixture.echo_route
     = ([EvCallNext (Fixture.request_of "/me" [("authorization", "Token abc")])],
        inr None).
Proof.
  repeat split; vm_compute; reflexivity.
Qed.

(** C8 (as amended): while authentication is disabled, the gate hands
    every request to the rest of the chain unchanged and never invokes the
    validator; the fixed placeholder identity is what [get_current_user]
    returns for any request, whatever its state. *)
Theorem auth_disabled_forwards {Response : Type} (W : World) (cfg : Config)
    (auth_handler : EntraIDAuth) (self : AuthMiddleware) (request : Request)
    (call_next : Request -> res Response) :
  ENABLE_AUTH cfg = false ->
  AuthMiddleware_call W cfg auth_handler self request call_next
  = ([EvCallNext request], call_next request)
  /\ invokes_validator
       (trace (AuthMiddleware_call W cfg auth_handler self request call_next))
     = false
  /\ Main.dispatch W cfg auth_handler request call_next
     = ([EvCallNext request], call_next request)
  /\ get_current_user cfg request = inr development_user
  /\ development_user !! "sub" = Some (VStr "development-user")
  /\ development_user !! "name" = Some (VStr "Development User").
Proof.
  intros Hen.
  assert (Hrun : AuthMiddleware_call W cfg auth_handler self request call_next
                 = ([EvCallNext request], call_next request)).
  { unfold AuthMiddleware_call. rewrite Hen.
    destruct (is_excluded self request); reflexivity. }
  rewrite Hrun. unfold Main.dispatch, get_current_user. rewrite Hen.
  repeat split; reflexivity.
Qed.

Lemma auth_disabled_forwards_witness :
  AuthMiddleware_call Fixture.world Fixture.cfg_off Fixture.handler
    Main.auth_middleware (Fixture.request_of "/me" []) Fixture.echo_route
  = ([EvCallNext (Fixture.request_of "/me" [])], inr None)
  /\ get_current_user Fixture.cfg_off (Fixture.request_of "/me" [])
     = inr development_user.
Proof.
  pose proof (auth_disabled_forwards Fixture.world Fixture.cfg_off
                Fixture.handler Main.auth_middleware
                (Fixture.request_of "/me" []) Fixture.echo_route
                ltac:(vm_compute; reflexivity)) as (H1 & _ & _ & H4 & _).
  split; [exact H1|exact H4].
Defined.

(** C8 (as stated) fails: with authentication switched off, the request
    the gate forwards carries no claims at all; the rest of the chain sees
    a request state without a user, not the placeholder identity. *)
Lemma auth_disabled_counterexample :
  ENABLE_AUTH Fixture.cfg_off = false
  /\ forwarded
       (trace (AuthMiddleware_call Fixture.world Fixture.cfg_off Fixture.handler
                 Main.auth_middleware (Fixture.request_of "/me" [])
                 Fixture.echo_route))
     = [Fixture.request_of "/me" []]
  /\ state_user (Fixture.request_of "/me" []) = None
  /\ state_user (Fixture.request_of "/me" []) <> Some development_user
  /\ outcome (AuthMiddleware_call Fixture.world Fixture.cfg_off Fixture.handler
                Main.auth_middleware (Fixture.request_of "/me" [])
                Fixture.echo_route)
     = inr None.
Proof.
  repeat split; try (vm_compute; reflexivity). discriminate.
Qed.

Section GateRuns.

Context {Response : Type}.
Variable W : World.
Variable cfg : Config.
Variable auth_handler : EntraIDAuth.
Variable self : AuthMiddleware.
Variable call_next : Request -> res Response.

(** A gate that stops before token extraction makes at most the call to
    the rest of the chain, with the request as it came in. *)
Lemma gate_early_run request :
  is_excluded self request = true
  \/ ENABLE_AUTH cfg = false
  \/ bad_authorization (headers_get "Authorization" request) = true ->
  trace (AuthMiddleware_call W cfg auth_handler self request call_next)
  = [EvCallNext request]
  \/ trace (AuthMiddleware_call W cfg auth_handler self request call_next) = [].
Proof.
  unfold AuthMiddleware_call. cbv zeta.
  destruct (is_excluded self request); [left; reflexivity|].
  destruct (ENABLE_AUTH cfg); [|left; reflexivity].
  intros [H|[H|H]]; try discriminate. rewrite H. right. reflexivity.
Qed.

Lemma forwarded_bearer_run token (tail : list event) :
  forwarded (EvValidateToken token
               :: trace (validate_token W cfg auth_handler token) ++ tail)
  = forwarded tail.
Proof.
  unfold forwarded. simpl. rewrite omap_app.
  fold (forwarded (trace (validate_token W cfg auth_handler token))).
  now rewrite (forwarded_library _ (validate_token_trace_library _ _ _ _)).
Qed.

(** What the gate forwards on a request that reaches token extraction:
    the request with the validated claims, or nothing. *)
Lemma gate_bearer_forwarded request h token :
  is_excluded self request = false ->
  ENABLE_AUTH cfg = true ->
  headers_get "Authorization" request = Some h ->
  PyStr.startswith h "Bearer " = true ->
  PyStr.split " " h !! 1%nat = Some token ->
  forwarded (trace (AuthMiddleware_call W cfg auth_handler self request call_next))
  = match outcome (validate_token W cfg auth_handler token) with
    | inl _ => []
    | inr cl => [set_state_user request cl]
    end.
Proof.
  intros Hex Hen Hh Hp Htok.
  rewrite (gate_bearer_run W cfg auth_handler self call_next request h token
             Hex Hen Hh Hp Htok).
  destruct (outcome (validate_token W cfg auth_handler token)) as [e|cl];
    unfold trace at 1; cbn [fst].
  - rewrite <- (app_nil_r (trace _)). now rewrite forwarded_bearer_run.
  - now rewrite forwarded_bearer_run.
Qed.


End GateRuns.



(** C10: while authentication is enabled, [get_current_user] raises a 401
    on every request whose state holds no user; and when a request
    arrives with no user in its state, every request the gate forwards
    for which [get_current_user] returns claims is the incoming request
    with exactly the claims that a [validate_token] call of this gate
    run returned. *)
Theorem current_user_from_validation {Response : Type} (W : World)
    (cfg : Config) (auth_handler : EntraIDAuth) (self : AuthMiddleware)
    (request : Request) (call_next : Request -> res Response) :
  ENABLE_AUTH cfg = true ->
  state_user request = None ->
  get_current_user cfg request = inl (http401 "User not authenticated")
  /\ (forall request' cl,
        request' ∈ forwarded
          (trace (AuthMiddleware_call W cfg auth_handler self request call_next)) ->
        get_current_user cfg request' = inr cl ->
        exists token,
          EvValidateToken token
            ∈ trace (AuthMiddleware_call W cfg auth_handler self request call_next)
          /\ outcome (validate_token W cfg auth_handler token) = inr cl
          /\ request' = set_state_user request cl).
Proof.
  intros Hen Hfresh.
  assert (Hnone : get_current_user cfg request
                  = inl (http401 "User not authenticated")).
  { unfold get_current_user. now rewrite Hen, Hfresh. }
  split; [exact Hnone|]. intros request' cl Hfw Huser.
  destruct (is_excluded self request) eqn:Hex.
  { destruct (gate_early_run W cfg auth_handler self call_next request
                (or_introl Hex)) as [Ht|Ht];
      rewrite Ht in Hfw; simpl in Hfw.
    - apply list_elem_of_singleton in Hfw. subst request'. congruence.
    - now apply not_elem_of_nil in Hfw. }
  destruct (bad_authorization (headers_get "Authorization" request)) eqn:Hbad.
  { destruct (gate_early_run W cfg auth_handler self call_next request
                (or_intror (or_intror Hbad))) as [Ht|Ht];
      rewrite Ht in Hfw; simpl in Hfw.
    - apply list_elem_of_singleton in Hfw. subst request'. congruence.
    - now apply not_elem_of_nil in Hfw. }
  destruct (headers_get "Authorization" request) as [h|] eqn:Hh;
    [|discriminate].
  assert (Hp : PyStr.startswith h "Bearer " = true).
  { unfold bad_authorization in Hbad. apply orb_false_iff in Hbad as [_ Hb].
    now apply negb_false_iff in Hb. }
  destruct (bearer_second_segment h Hp) as (rest & token & _ & _ & Htok).
  rewrite (gate_bearer_forwarded W cfg auth_handler self call_next request h
             token Hex Hen Hh Hp Htok) in Hfw.
  rewrite (gate_bearer_run W cfg auth_handler self call_next request h token
             Hex Hen Hh Hp Htok).
  destruct (outcome (validate_token W cfg auth_handler token)) as [e|cl0] eqn:Ho.
  - now apply not_elem_of_nil in Hfw.
  - apply list_elem_of_singleton in Hfw. subst request'.
    unfold get_current_user in Huser. rewrite Hen in Huser. simpl in Huser.
    inversion Huser; subst cl0. exists token.
    split; [apply list_elem_of_here|]. split; [exact Ho|reflexivity].
Qed.

Lemma current_user_from_validation_witness :
  get_current_user Fixture.cfg (Fixture.request_of "/me" [])
  = inl (http401 "User not authenticated")
  /\ exists token,
       EvValidateToken token
         ∈ trace (AuthMiddleware_call Fixture.world Fixture.cfg Fixture.handler
                    Main.auth_middleware
                    (Fixture.request_of "/me" [("authorization", "Bearer h1.v2.good")])
                    Fixture.echo_route)
       /\ outcome (validate_token Fixture.world Fixture.cfg Fixture.handler token)
          = inr (Fixture.payload_of Fixture.issuer_v2 2000)
       /\ mkRequest "/me" [("authorization", "Bearer h1.v2.good")]
            (Some (Fixture.payload_of Fixture.issuer_v2 2000))
          = set_state_user
              (Fixture.request_of "/me" [("authorization", "Bearer h1.v2.good")])
              (Fixture.payload_of Fixture.issuer_v2 2000).
Proof.
  split.
  - exact (proj1 (current_user_from_validation Fixture.world Fixture.cfg
                    Fixture.handler Main.auth_middleware
                    (Fixture.request_of "/me" []) Fixture.echo_route
                    eq_refl eq_refl)).
  - refine (proj2 (current_user_from_validation Fixture.world Fixture.cfg
                     Fixture.handler Main.auth_middleware
                     (Fixture.request_of "/me"
                        [("authorization", "Bearer h1.v2.good")])
                     Fixture.echo_route eq_refl eq_refl)
              (mkRequest "/me" [("authorization", "Bearer h1.v2.good")]
                 (Some (Fixture.payload_of Fixture.issuer_v2 2000)))
              (Fixture.payload_of Fixture.issuer_v2 2000) _ _).
    + vm_compute. apply list_elem_of_here.
    + vm_compute. reflexivity.
Defined.

(* ===================================================================== *)
(** ** Further properties of the validator *)
(* ===================================================================== *)

(** The unverified [decode_complete] step by step. *)
Lemma decode_complete_unverified W token :
  decode_complete W token None [] None None options_unverified =
  match _load W token with
  | inl e => inl e
  | inr l =>
      match _check_b64 l with
      | inl e => inl e
      | inr _ =>
          match _decode_payload W l with
          | inl e => inl e
          | inr p => inr (l_header l, p)
          end
      end
  end.
Proof.
  unfold decode_complete, res_bind. simpl.
  destruct (_load W token) as [e|l]; [reflexivity|].
  destruct (_check_b64 l) as [e|u]; [reflexivity|].
  destruct (_decode_payload W l) as [e|p]; reflexivity.
Qed.

(** Key resolution returns a key only for a token that parses, and the
    key is the one looked up under the header's [kid]. *)
Lemma get_signing_key_from_jwt_inv W c token jwk :
  get_signing_key_from_jwt W c token = inr jwk ->
  exists l p,
    _load W token = inr l /\ _check_b64 l = inr tt
    /\ _decode_payload W l = inr p
    /\ get_signing_key W c (l_header l !! "kid") = inr jwk.
Proof.
  unfold get_signing_key_from_jwt. rewrite decode_complete_unverified.
  unfold res_bind.
  destruct (_load W token) as [e|l] eqn:El; [discriminate|].
  destruct (_check_b64 l) as [e|[]] eqn:Eb; [discriminate|].
  destruct (_decode_payload W l) as [e|p] eqn:Ep; [discriminate|].
  simpl. intros H. exists l, p. auto.
Qed.

(** Every failure of the key lookup is a [PyJWKClientError]. *)
Lemma get_signing_key_error W c kid e :
  get_signing_key W c kid = inl e -> exists msg, e = Exn PyJWKClientError msg.
Proof.
  unfold get_signing_key, get_signing_keys, res_bind, err.
  destruct (fetch_jwks W (uri c)) as [msg|keys].
  - intros H. inversion H. eauto.
  - destruct (List.filter is_signing_key keys) as [|k ks].
    + intros H. inversion H. eauto.
    + destruct (match_kid (k :: ks) kid); [discriminate|].
      intros H. inversion H. eauto.
Qed.

(** A key returned by the lookup was published by the endpoint as a
    signing key under the requested id. *)
Lemma get_signing_key_ok W c kid jwk :
  get_signing_key W c kid = inr jwk ->
  exists jwks k,
    fetch_jwks W (uri c) = inr jwks /\ jwk ∈ jwks
    /\ kid = Some (VStr k) /\ key_id jwk = Some k
    /\ is_signing_key jwk = true.
Proof.
  unfold get_signing_key, get_signing_keys, res_bind, err.
  destruct (fetch_jwks W (uri c)) as [msg|keys]; [discriminate|].
  destruct (List.filter is_signing_key keys) as [|k0 ks] eqn:Ef; [discriminate|].
  destruct (match_kid (k0 :: ks) kid) as [j|] eqn:Em; [|discriminate].
  intros H. inversion H; subst j. unfold match_kid in Em.
  destruct kid as [[| | |k| |]|]; try discriminate.
  apply find_some in Em as [Hin Hid]. rewrite <- Ef in Hin.
  apply filter_In in Hin as [Hin Hsig].
  destruct (key_id jwk) as [i|] eqn:Ei; [|discriminate].
  apply String.eqb_eq in Hid. subst i.
  exists keys, k. repeat split; auto. now apply list_elem_of_In.
Qed.

(** The signature check passes only for the algorithm RS256 and a
    signature that verifies under the key. *)
Lemma verify_signature_ok W l k :
  _verify_signature W l (Some k) ["RS256"] = inr tt ->
  l_header l !! "alg" = Some (VStr "RS256")
  /\ alg_verify W "RS256" (l_signing_input l) k (l_signature l) = true.
Proof.
  unfold _verify_signature, err.
  destruct (l_header l !! "alg") as [[| | |alg| |]|]; try discriminate.
  case_bool_decide as Hin; [|rewrite orb_true_r; discriminate].
  apply list_elem_of_singleton in Hin. subst alg. simpl.
  destruct (alg_verify W "RS256" (l_signing_input l) k (l_signature l));
    [auto|discriminate].
Qed.

(** X1: startup fails, with a [ValueError], exactly when authentication is
    enabled and the tenant id or the client id is unset or empty.
    Otherwise the handler carries the configured ids and the tenant's
    JWKS address, and it has a key client exactly when authentication is
    enabled. *)
Theorem init_fails_iff_missing_config (cfg : Config) :
  ((exists e, EntraIDAuth_init cfg = inl e)
   <-> ENABLE_AUTH cfg = true
       /\ (PyStr.truthy (AZURE_TENANT_ID cfg) = false
           \/ PyStr.truthy (AZURE_CLIENT_ID cfg) = false))
  /\ (forall e, EntraIDAuth_init cfg = inl e -> exists msg, e = Exn ValueError msg)
  /\ (forall self, EntraIDAuth_init cfg = inr self ->
        tenant_id self = AZURE_TENANT_ID cfg
        /\ client_id self = AZURE_CLIENT_ID cfg
        /\ jwks_uri self
           = "https://login.microsoftonline.com/"
             +:+ PyStr.fmt (AZURE_TENANT_ID cfg) +:+ "/discovery/v2.0/keys"
        /\ jwks_client self
           = if ENABLE_AUTH cfg then Some (mkClient (jwks_uri self)) else None).
Proof.
  unfold EntraIDAuth_init, _validate_config, res_bind.
  destruct (ENABLE_AUTH cfg);
    destruct (PyStr.truthy (AZURE_TENANT_ID cfg));
    destruct (PyStr.truthy (AZURE_CLIENT_ID cfg)); simpl;
    (split; [split; [intros [e H]; try discriminate; auto
                    |intros [H [H'|H']]; try discriminate; eauto]
            |split; [intros e H; inversion H; eauto
                    |intros self H; inversion H; auto]]).
Qed.

Lemma init_fails_iff_missing_config_witness :
  exists msg,
    EntraIDAuth_init (load_config (<[ "AZURE_TENANT_ID" := "t1" ]> ∅))
    = inl (Exn ValueError msg).
Proof.
  destruct (init_fails_iff_missing_config
              (load_config (<[ "AZURE_TENANT_ID" := "t1" ]> ∅)))
    as ([_ Hfail] & Hcls & _).
  destruct Hfail as [e He].
  - split; [reflexivity|right; reflexivity].
  - destruct (Hcls e He) as [msg ->]. now exists msg.
Defined.

(** X2: a handler built while authentication is disabled has no key
    client, so [validate_token] rejects every token with 401 "Token
    validation failed" before any library call. *)
Theorem disabled_handler_rejects_all (W : World) (cfg : Config)
    (self : EntraIDAuth) (token : string) :
  ENABLE_AUTH cfg = false ->
  EntraIDAuth_init cfg = inr self ->
  validate_token W cfg self token
  = ([], inl (http401 "Token validation failed")).
Proof.
  intros Hen Hinit. unfold EntraIDAuth_init in Hinit. rewrite Hen in Hinit.
  inversion Hinit; subst self. reflexivity.
Qed.

Lemma disabled_handler_rejects_all_witness :
  validate_token Fixture.world Fixture.cfg_off
    (mkEntraIDAuth (Some "t1") (Some "c1")
       "https://login.microsoftonline.com/t1/discovery/v2.0/keys" None)
    "h1.v2.good"
  = ([], inl (http401 "Token validation failed")).
Proof.
  apply disabled_handler_rejects_all; vm_compute; reflexivity.
Defined.

(** Lower-casing to one of the letters of [true]. *)
Lemma lower_ascii_letter (c l u : ascii) :
  (l, u) = ("t", "T")%char \/ (l, u) = ("r", "R")%char
  \/ (l, u) = ("u", "U")%char \/ (l, u) = ("e", "E")%char ->
  PyStr.lower_ascii c = l <-> c = l \/ c = u.
Proof.
  intros [H|[H|[H|H]]]; inversion H; subst; clear H;
    destruct c as [[] [] [] [] [] [] [] []]; vm_compute;
    (split; [intros H; first [discriminate H | (left; reflexivity)
                              | (right; reflexivity)]
            |intros [H|H]; first [discriminate H | reflexivity]]).
Qed.

Lemma lower_true s : PyStr.lower s = "true" <-> spells_true s.
Proof.
  unfold spells_true. split.
  - destruct s as [|c1 [|c2 [|c3 [|c4 [|c5 s]]]]]; simpl; try discriminate.
    intros H. injection H as H1 H2 H3 H4.
    exists c1, c2, c3, c4. split; [reflexivity|].
    split; [|split; [|split]].
    + apply (lower_ascii_letter c1 "t" "T"); [left; reflexivity|exact H1].
    + apply (lower_ascii_letter c2 "r" "R");
        [right; left; reflexivity|exact H2].
    + apply (lower_ascii_letter c3 "u" "U");
        [right; right; left; reflexivity|exact H3].
    + apply (lower_ascii_letter c4 "e" "E");
        [right; right; right; reflexivity|exact H4].
  - intros (c1 & c2 & c3 & c4 & -> & H1 & H2 & H3 & H4). simpl.
    apply (lower_ascii_letter c1 "t" "T") in H1; [|left; reflexivity].
    apply (lower_ascii_letter c2 "r" "R") in H2; [|right; left; reflexivity].
    apply (lower_ascii_letter c3 "u" "U") in H3;
      [|right; right; left; reflexivity].
    apply (lower_ascii_letter c4 "e" "E") in H4;
      [|right; right; right; reflexivity].
    now rewrite H1, H2, H3, H4.
Qed.

(** X3: authentication is enabled exactly when ENABLE_AUTH is unset or is
    one of the sixteen upper/lower-case spellings of [true]; every other
    value, such as 1, yes, on or a padded true, switches it off. *)
Theorem enable_auth_spelling (env : gmap string string) :
  ENABLE_AUTH (load_config env) = true
  <-> env !! "ENABLE_AUTH" = None
      \/ exists s, env !! "ENABLE_AUTH" = Some s /\ spells_true s.
Proof.
  unfold load_config, getenv_default. simpl.
  destruct (env !! "ENABLE_AUTH") as [s|]; simpl.
  - rewrite String.eqb_eq, lower_true. split.
    + intros H. right. now exists s.
    + intros [H|(s' & H & Hs)]; [discriminate|]. now inversion H; subst.
  - split; [now left|reflexivity].
Qed.

(** X4: a token that parses, whose [kid] header is absent or a string, is
    rejected at key resolution with 401 "Token validation failed" unless
    the tenant's JWKS endpoint publishes a key whose id is that string;
    its claims are not parsed by [validate_token] and no verification is
    attempted.  This covers an unreachable endpoint, a missing [kid] and
    an unknown key id. *)
Theorem unknown_key_rejected (W : World) (cfg : Config) (self : EntraIDAuth)
    (c : PyJWKClient) (token : string) (header payload : claims) :
  jwks_client self = Some c ->
  decode_complete W token None [] None None options_unverified
  = inr (header, payload) ->
  (forall v, header !! "kid" = Some v -> exists kid, v = VStr kid) ->
  (forall jwks j kid,
     fetch_jwks W (uri c) = inr jwks -> j ∈ jwks ->
     header !! "kid" = Some (VStr kid) -> key_id j <> Some kid) ->
  validate_token W cfg self token
  = ([EvGetSigningKey token], inl (http401 "Token validation failed")).
Proof.
  intros Hc Hd _ Hno.
  destruct (get_signing_key_from_jwt W c token) as [e|jwk] eqn:Ek.
  - rewrite (validate_token_key_failure W cfg self c token e Hc Ek).
    unfold get_signing_key_from_jwt in Ek. rewrite Hd in Ek. simpl in Ek.
    apply get_signing_key_error in Ek as [msg ->]. reflexivity.
  - exfalso. unfold get_signing_key_from_jwt in Ek. rewrite Hd in Ek.
    simpl in Ek.
    apply get_signing_key_ok in Ek as (jwks & k & Hf & Hin & Hkid & Hid & _).
    exact (Hno jwks jwk k Hf Hin Hkid Hid).
Qed.

Lemma unknown_key_rejected_witness :
  validate_token Fixture.world Fixture.cfg Fixture.handler "h9.v2.good"
  = ([EvGetSigningKey "h9.v2.good"], inl (http401 "Token validation failed")).
Proof.
  refine (unknown_key_rejected Fixture.world Fixture.cfg Fixture.handler
            (mkClient "https://login.microsoftonline.com/t1/discovery/v2.0/keys")
            "h9.v2.good" (Fixture.header_of "k9")
            (Fixture.payload_of Fixture.issuer_v2 2000) eq_refl _ _ _).
  - vm_compute. reflexivity.
  - intros v Hv. vm_compute in Hv. inversion Hv. now exists "k9".
  - intros jwks j kid Hf Hin Hkid. vm_compute in Hf, Hkid.
    inversion Hf; subst jwks. inversion Hkid; subst kid.
    apply list_elem_of_singleton in Hin. subst j. discriminate.
Defined.

(** X5: a token whose header does not name the algorithm RS256 is never
    accepted, whatever its signature bytes are.  When its signing key
    resolves it is rejected as an invalid token: with no [alg] header
    "Algorithm not specified", with any other value "The specified alg
    value is not allowed"; when the key does not resolve it is rejected
    at key resolution, before the algorithm is looked at. *)
Theorem wrong_algorithm_rejected (W : World) (cfg : Config)
    (self : EntraIDAuth) (token : string) (l : loaded) :
  _load W token = inr l ->
  l_header l !! "alg" <> Some (VStr "RS256") ->
  (forall cl, outcome (validate_token W cfg self token) <> inr cl)
  /\ (forall c jwk,
        jwks_client self = Some c ->
        get_signing_key_from_jwt W c token = inr jwk ->
        outcome (validate_token W cfg self token)
        = inl (http401 ("Invalid token: " +:+
                        match l_header l !! "alg" with
                        | None => "Algorithm not specified"
                        | Some _ => "The specified alg value is not allowed"
                        end)))
  /\ (forall c e,
        jwks_client self = Some c ->
        get_signing_key_from_jwt W c token = inl e ->
        validate_token W cfg self token
        = ([EvGetSigningKey token], inl (http401 (detail_of (classify e))))).
Proof.
  intros Hl Halg. split; [|split].
  - intros cl H.
    apply validate_token_ok_inv in H as (c & jwk & u & _ & _ & _ & Hd & _).
    apply decode_verified_inv in Hd as [(l' & Hl' & _ & Hs & _) _];
      [|reflexivity].
    assert (l' = l) by congruence. subst l'.
    apply verify_signature_ok in Hs as [Ha _]. contradiction.
  - intros c jwk Hc Hk.
    destruct (get_signing_key_from_jwt_inv W c token jwk Hk)
      as (l' & p & Hl' & Hb & Hp & _).
    assert (l' = l) by congruence. subst l'.
    assert (Hu : decode W token None [] None None options_unverified = inr p).
    { rewrite decode_steps, Hl, Hb, Hp. reflexivity. }
    rewrite (validate_token_run W cfg self c token jwk p Hc Hk Hu).
    unfold decode_with, outcome. simpl.
    rewrite decode_steps, Hl, Hb. simpl.
    unfold _verify_signature, err.
    destruct (l_header l !! "alg") as [[| | |alg| |]|]; try reflexivity.
    case_bool_decide as Hin; [|rewrite orb_true_r; reflexivity].
    apply list_elem_of_singleton in Hin. subst alg. now contradiction Halg.
  - intros c e. apply validate_token_key_failure.
Qed.

Lemma wrong_algorithm_rejected_witness :
  outcome (validate_token Fixture2.world Fixture.cfg Fixture.handler "hs.v2.good")
  = inl (http401 "Invalid token: The specified alg value is not allowed").
Proof.
  refine (proj1 (proj2 (wrong_algorithm_rejected Fixture2.world Fixture.cfg
            Fixture.handler "hs.v2.good"
            (mkLoaded "v2" "hs.v2"
               (<[ "alg" := VStr "HS256" ]> (<[ "kid" := VStr "k1" ]> ∅))
               "good") _ _))
            Fixture2.client Fixture2.jwk1 eq_refl _).
  - vm_compute. reflexivity.
  - vm_compute. discriminate.
  - vm_compute. reflexivity.
Defined.

(** With the key resolved and the token decoded under it, the run is
    decided by the claim checks of the verified decode. *)
Lemma validate_token_decoded W cfg self c token jwk payload :
  jwks_client self = Some c ->
  get_signing_key_from_jwt W c token = inr jwk ->
  decoded W token (key jwk) payload ->
  validate_token W cfg self token =
  ([EvGetSigningKey token; EvDecodeUnverified token;
    EvDecodeVerified token (key jwk)],
   match _validate_claims W payload options_verified
           (Some (TOKEN_AUDIENCE cfg)) (Some (valid_issuers self)) with
   | inl e => inl (http401 (detail_of (classify e)))
   | inr _ => inr payload
   end).
Proof.
  intros Hc Hk Hdec.
  rewrite (validate_token_run W cfg self c token jwk payload Hc Hk
             (decode_unverified_of_decoded W token (key jwk) payload Hdec)).
  unfold decode_with.
  rewrite (decode_verified_intro W token (key jwk) _ _ _ payload Hdec).
  destruct (_validate_claims W payload options_verified _ _); reflexivity.
Qed.

(** The claim checks of the verified decode, in the order they run. *)
Lemma validate_claims_verified W payload aud iss :
  _validate_claims W payload options_verified aud iss =
  (_validate_iat W payload ;;; _validate_nbf W payload ;;;
   _validate_exp W payload ;;; _validate_iss payload iss ;;;
   _validate_aud payload aud).
Proof. reflexivity. Qed.

Lemma res_seq_pass {A} (b : res A) : (inr tt ;;; b) = b.
Proof. reflexivity. Qed.

(** X6: a token that passes every other check of the verified decode but
    whose audience claim does not contain the configured audience is
    rejected.  When the claim is present and not empty (a non-empty
    string, a non-empty list, a non-zero number, [true], a non-empty
    object) the answer is 401 "Invalid token audience", also when the
    claim is not a string or a list of strings at all.  When the claim
    is absent or empty (the empty string, the empty list, null, zero,
    [false]) the answer is the 401 of a missing claim, "Invalid token:
    Token is missing the "aud" claim". *)
Theorem audience_mismatch_rejected (W : World) (cfg : Config)
    (self : EntraIDAuth) (c : PyJWKClient) (token : string) (jwk : JWK)
    (payload : claims) :
  jwks_client self = Some c ->
  get_signing_key_from_jwt W c token = inr jwk ->
  decode_with W cfg self token (key jwk) options_without_aud = inr payload ->
  (forall v auds, payload !! "aud" = Some v ->
     audience_claims v = Some auds -> TOKEN_AUDIENCE cfg ∉ auds) ->
  outcome (validate_token W cfg self token)
  = inl (http401
           (if match payload !! "aud" with
               | Some v => value_truthy v
               | None => false
               end
            then "Invalid token audience"
            else "Invalid token: Token is missing the " +:+ dq +:+ "aud"
                 +:+ dq +:+ " claim")).
Proof.
  intros Hc Hk Hd Hno.
  apply decode_verified_inv in Hd as [Hdec Hcl]; [|reflexivity].
  apply validate_claims_ok in Hcl as (Hiat & Hnbf & Hexp & Hiss & _).
  rewrite (validate_token_decoded W cfg self c token jwk payload Hc Hk Hdec).
  unfold outcome. cbn [snd]. rewrite validate_claims_verified.
  rewrite (Hiat eq_refl), (Hnbf eq_refl), (Hexp eq_refl), (Hiss eq_refl).
  rewrite !res_seq_pass. unfold _validate_aud.
  destruct (payload !! "aud") as [v|] eqn:Haud; [|reflexivity].
  destruct (value_truthy v); [|reflexivity].
  cbn [negb]. destruct (audience_claims v) as [auds|] eqn:Ea; [|reflexivity].
  rewrite bool_decide_eq_false_2; [reflexivity|]. now apply (Hno v).
Qed.

Lemma audience_mismatch_rejected_witness :
  outcome (validate_token Fixture2.world Fixture.cfg Fixture.handler
             "h1.aud2.good")
  = inl (http401 "Invalid token audience").
Proof.
  refine (audience_mismatch_rejected Fixture2.world Fixture.cfg
            Fixture.handler Fixture2.client "h1.aud2.good" Fixture2.jwk1
            (Fixture2.payload_with (VStr "api://c2") (<[ "exp" := VInt 2000 ]> ∅))
            eq_refl _ _ _);
    try (vm_compute; reflexivity).
  intros v auds Hv Ha. vm_compute in Hv. inversion Hv; subst v.
  inversion Ha; subst auds. vm_compute.
  intros Hin. apply list_elem_of_singleton in Hin. discriminate.
Defined.

(** X7: a token that passes the checks made before the issuer check but
    whose issuer claim is not the string of one of the two tenant-issuer
    forms is rejected with 401 "Invalid token issuer", whatever its
    audience. *)
Theorem issuer_mismatch_rejected (W : World) (cfg : Config)
    (self : EntraIDAuth) (c : PyJWKClient) (token : string) (jwk : JWK)
    (payload : claims) (v : value) :
  jwks_client self = Some c ->
  get_signing_key_from_jwt W c token = inr jwk ->
  decode_with W cfg self token (key jwk) options_before_iss = inr payload ->
  payload !! "iss" = Some v ->
  v <> VStr (issuer_v1 (tenant_id self)) ->
  v <> VStr (issuer_v2 (tenant_id self)) ->
  outcome (validate_token W cfg self token)
  = inl (http401 "Invalid token issuer").
Proof.
  intros Hc Hk Hd Hiss H1 H2.
  apply decode_verified_inv in Hd as [Hdec Hcl]; [|reflexivity].
  apply validate_claims_ok in Hcl as (Hiat & Hnbf & Hexp & _ & _).
  rewrite (validate_token_decoded W cfg self c token jwk payload Hc Hk Hdec).
  unfold outcome. cbn [snd]. rewrite validate_claims_verified.
  rewrite (Hiat eq_refl), (Hnbf eq_refl), (Hexp eq_refl).
  rewrite !res_seq_pass. unfold _validate_iss. rewrite Hiss.
  destruct v as [| | |iss| |]; try reflexivity.
  rewrite bool_decide_eq_false_2; [reflexivity|].
  unfold valid_issuers. fold (issuer_v1 (tenant_id self)).
  fold (issuer_v2 (tenant_id self)). intros Hin.
  apply elem_of_cons in Hin as [->|Hin]; [now apply H1|].
  apply list_elem_of_singleton in Hin. subst iss. now apply H2.
Qed.

Lemma issuer_mismatch_rejected_witness :
  outcome (validate_token Fixture.world Fixture.cfg Fixture.handler
             "h1.other.good")
  = inl (http401 "Invalid token issuer").
Proof.
  refine (issuer_mismatch_rejected Fixture.world Fixture.cfg Fixture.handler
            Fixture2.client "h1.other.good" Fixture2.jwk1
            (Fixture.payload_of "https://issuer.example/" 2000)
            (VStr "https://issuer.example/") eq_refl _ _ _ _ _);
    try (vm_compute; reflexivity); vm_compute; discriminate.
Defined.

(** X8: the expiration check applies only to tokens that carry an [exp]
    claim: a token without one that passes every other check is
    accepted, so it never expires. *)
Theorem token_without_exp_accepted (W : World) (cfg : Config)
    (self : EntraIDAuth) (c : PyJWKClient) (token : string) (jwk : JWK)
    (payload : claims) :
  jwks_client self = Some c ->
  get_signing_key_from_jwt W c token = inr jwk ->
  decode_with W cfg self token (key jwk) options_without_exp = inr payload ->
  payload !! "exp" = None ->
  outcome (validate_token W cfg self token) = inr payload.
Proof.
  intros Hc Hk Hd Hexp.
  apply decode_verified_inv in Hd as [Hdec Hcl]; [|reflexivity].
  apply validate_claims_ok in Hcl as (Hiat & Hnbf & _ & Hiss & Haud).
  rewrite (validate_token_decoded W cfg self c token jwk payload Hc Hk Hdec).
  assert (Hall : _validate_claims W payload options_verified
                   (Some (TOKEN_AUDIENCE cfg)) (Some (valid_issuers self))
                 = inr tt).
  { apply validate_claims_ok. repeat split; intros _; auto.
    unfold _validate_exp. now rewrite Hexp. }
  unfold outcome. simpl. now rewrite Hall.
Qed.

Lemma token_without_exp_accepted_witness :
  outcome (validate_token Fixture2.world Fixture.cfg Fixture.handler
             "h1.noexp.good")
  = inr (Fixture2.payload_with (VStr "api://c1") (<[ "sub" := VStr "bob" ]> ∅)).
Proof.
  refine (token_without_exp_accepted Fixture2.world Fixture.cfg
            Fixture.handler Fixture2.client "h1.noexp.good" Fixture2.jwk1
            _ eq_refl _ _ _);
    vm_compute; reflexivity.
Defined.

(** What a passed time check says about the claim. *)
Lemma validate_exp_ok W payload v :
  _validate_exp W payload = inr tt -> payload !! "exp" = Some v ->
  exists e, py_int W v = IntOk e /\ now W < e.
Proof.
  unfold _validate_exp, err, int_type_error, err. intros H Hv. rewrite Hv in H.
  destruct (py_int W v) as [e| |]; try discriminate.
  destruct (e <=? now W) eqn:Hle; [discriminate|].
  exists e. split; [reflexivity|]. apply Z.leb_gt in Hle. lia.
Qed.

Lemma validate_nbf_ok W payload v :
  _validate_nbf W payload = inr tt -> payload !! "nbf" = Some v ->
  exists n, py_int W v = IntOk n /\ n <= now W.
Proof.
  unfold _validate_nbf, err, int_type_error, err. intros H Hv. rewrite Hv in H.
  destruct (py_int W v) as [n| |]; try discriminate.
  destruct (now W <? n) eqn:Hlt; [discriminate|].
  exists n. split; [reflexivity|]. apply Z.ltb_ge in Hlt. lia.
Qed.

Lemma validate_iat_ok W payload v :
  _validate_iat W payload = inr tt -> payload !! "iat" = Some v ->
  exists n, py_int W v = IntOk n /\ n <= now W.
Proof.
  unfold _validate_iat, err, int_type_error, err. intros H Hv. rewrite Hv in H.
  destruct (py_int W v) as [n| |]; try discriminate.
  destruct (now W <? n) eqn:Hlt; [discriminate|].
  exists n. split; [reflexivity|]. apply Z.ltb_ge in Hlt. lia.
Qed.

Lemma validate_aud_ok payload aud :
  _validate_aud payload (Some aud) = inr tt ->
  exists v auds, payload !! "aud" = Some v
    /\ audience_claims v = Some auds /\ aud ∈ auds.
Proof.
  unfold _validate_aud, missing_claim, err.
  destruct (payload !! "aud") as [v|] eqn:Ev; [|discriminate].
  destruct (value_truthy v); [|discriminate]. simpl.
  destruct (audience_claims v) as [auds|] eqn:Ea; [|discriminate].
  case_bool_decide as Hin; [|discriminate].
  intros _. exists v, auds. auto.
Qed.

(** X9: the claims [validate_token] returns are exactly the claims of its
    own unverified parse of the token, so the issuer it read beforehand
    is the issuer of the accepted claims; and a successful run made all
    three library calls, each once and in order. *)
Theorem accepted_claims_are_parsed_claims (W : World) (cfg : Config)
    (self : EntraIDAuth) (token : string) (cl : claims) :
  outcome (validate_token W cfg self token) = inr cl ->
  decode W token None [] None None options_unverified = inr cl
  /\ exists k,
       trace (validate_token W cfg self token)
       = [EvGetSigningKey token; EvDecodeUnverified token;
          EvDecodeVerified token k].
Proof.
  intros H.
  apply validate_token_ok_inv in H as (c & jwk & u & _ & _ & _ & Hd & Ht).
  apply decode_verified_inv in Hd as [Hdec _]; [|reflexivity].
  split; [now apply (decode_unverified_of_decoded W token (key jwk))|].
  now exists (key jwk).
Qed.

Lemma accepted_claims_are_parsed_claims_witness :
  decode Fixture.world "h1.v1.good" None [] None None options_unverified
  = inr (Fixture.payload_of Fixture.issuer_v1 2000).
Proof.
  apply (accepted_claims_are_parsed_claims Fixture.world Fixture.cfg
           Fixture.handler "h1.v1.good").
  vm_compute. reflexivity.
Defined.

(** X10: accepted claims are current and meant for this service: an [exp]
    claim, when present, has a value under [int()] that is after the
    current time; [nbf] and [iat] claims, when present, have a value
    under [int()] that is not after it (the claim itself need not be a
    JSON integer: a numeric string or a boolean counts as the integer it
    converts to); and the audience claim is a string or a list of strings
    that contains the configured audience. *)
Theorem accepted_claims_current (W : World) (cfg : Config)
    (self : EntraIDAuth) (token : string) (cl : claims) :
  outcome (validate_token W cfg self token) = inr cl ->
  (forall v, cl !! "exp" = Some v -> exists e, py_int W v = IntOk e /\ now W < e)
  /\ (forall v, cl !! "nbf" = Some v ->
        exists n, py_int W v = IntOk n /\ n <= now W)
  /\ (forall v, cl !! "iat" = Some v ->
        exists n, py_int W v = IntOk n /\ n <= now W)
  /\ (exists v auds, cl !! "aud" = Some v
        /\ audience_claims v = Some auds /\ TOKEN_AUDIENCE cfg ∈ auds).
Proof.
  intros H.
  apply validate_token_ok_inv in H as (c & jwk & u & _ & _ & _ & Hd & _).
  apply decode_verified_inv in Hd as [_ Hcl]; [|reflexivity].
  apply validate_claims_ok in Hcl as (Hiat & Hnbf & Hexp & _ & Haud).
  split; [|split; [|split]].
  - intros v. now apply validate_exp_ok, Hexp.
  - intros v. now apply validate_nbf_ok, Hnbf.
  - intros v. now apply validate_iat_ok, Hiat.
  - now apply validate_aud_ok, Haud.
Qed.

Lemma accepted_claims_current_witness :
  exists v auds,
    Fixture2.payload_with (VArr [VStr "api://c2"; VStr "api://c1"])
      (<[ "exp" := VInt 2000 ]> ∅) !! "aud" = Some v
    /\ audience_claims v = Some auds
    /\ TOKEN_AUDIENCE Fixture.cfg ∈ auds.
Proof.
  apply (accepted_claims_current Fixture2.world Fixture.cfg Fixture.handler
           "h1.auds.good").
  vm_compute. reflexivity.
Defined.

(** What a loaded token is made of: the signing input is the token up to
    its last dot, the signature the decoded last segment. *)
Lemma load_ok W token l :
  _load W token = inr l ->
  exists crypto,
    PyStr.split_last "." token = Some (l_signing_input l, crypto)
    /\ b64url_decode W crypto = Some (l_signature l).
Proof.
  unfold _load, err.
  destruct (PyStr.split_last "." token) as [[si crypto]|]; [|discriminate].
  destruct (PyStr.split_first "." si) as [[hs ps]|]; [|discriminate].
  destruct (b64url_decode W hs) as [hd|]; [|discriminate].
  destruct (json_loads W hd) as [e|[h|v]]; try discriminate.
  destruct (b64url_decode W ps) as [pl|]; [|discriminate].
  destruct (b64url_decode W crypto) as [sg|] eqn:Es; [|discriminate].
  intros H. inversion H; subst l. simpl. exists crypto. auto.
Qed.

(** X11: claims are accepted only from a token whose header names RS256
    and a key id under which the handler's JWKS endpoint publishes a
    signing key (use [sig] or unspecified), and whose last segment decodes
    to a signature that verifies under that key over the token up to its
    last dot. *)
Theorem accepted_token_signed_by_published_key (W : World) (cfg : Config)
    (self : EntraIDAuth) (token : string) (cl : claims) :
  outcome (validate_token W cfg self token) = inr cl ->
  exists c jwks jwk l kid crypto,
    jwks_client self = Some c
    /\ fetch_jwks W (uri c) = inr jwks /\ jwk ∈ jwks
    /\ is_signing_key jwk = true
    /\ _load W token = inr l
    /\ l_header l !! "kid" = Some (VStr kid) /\ key_id jwk = Some kid
    /\ l_header l !! "alg" = Some (VStr "RS256")
    /\ PyStr.split_last "." token = Some (l_signing_input l, crypto)
    /\ b64url_decode W crypto = Some (l_signature l)
    /\ alg_verify W "RS256" (l_signing_input l) (key jwk) (l_signature l) = true.
Proof.
  intros H.
  apply validate_token_ok_inv in H as (c & jwk & u & Hc & Hk & _ & Hd & _).
  apply decode_verified_inv in Hd as [(l & Hl & _ & Hs & _) _]; [|reflexivity].
  apply get_signing_key_from_jwt_inv in Hk as (l' & p & Hl' & _ & _ & Hk).
  assert (l' = l) by congruence. subst l'.
  apply get_signing_key_ok in Hk as (jwks & kid & Hf & Hin & Hkid & Hid & Hsig).
  apply verify_signature_ok in Hs as [Halg Hv].
  destruct (load_ok W token l Hl) as (crypto & Hsp & Hb).
  exists c, jwks, jwk, l, kid, crypto. repeat split; assumption.
Qed.

Lemma accepted_token_signed_by_published_key_witness :
  exists c jwks jwk l kid crypto,
    jwks_client Fixture.handler = Some c
    /\ fetch_jwks Fixture.world (uri c) = inr jwks /\ jwk ∈ jwks
    /\ is_signing_key jwk = true
    /\ _load Fixture.world "h1.v2.good" = inr l
    /\ l_header l !! "kid" = Some (VStr kid) /\ key_id jwk = Some kid
    /\ l_header l !! "alg" = Some (VStr "RS256")
    /\ PyStr.split_last "." "h1.v2.good" = Some (l_signing_input l, crypto)
    /\ b64url_decode Fixture.world crypto = Some (l_signature l)
    /\ alg_verify Fixture.world "RS256" (l_signing_input l) (key jwk)
         (l_signature l) = true.
Proof.
  apply (accepted_token_signed_by_published_key Fixture.world Fixture.cfg
           Fixture.handler "h1.v2.good"
           (Fixture.payload_of Fixture.issuer_v2 2000)).
  vm_compute. reflexivity.
Defined.

(* ===================================================================== *)
(** ** Further properties of the gate *)
(* ===================================================================== *)

Lemma prefix_append (p s : string) : String.prefix p (p +:+ s) = true.
Proof.
  induction p as [|a p IH]; simpl; [now destruct s|].
  destruct (ascii_dec a a); [exact IH|congruence].
Qed.

(** A header [Bearer <token>] with a space-free token has the token as
    its second segment. *)
Lemma bearer_header_token token :
  PyStr.contains " " token = false ->
  PyStr.split " " ("Bearer " +:+ token) !! 1%nat = Some token.
Proof.
  intros H. now rewrite split_bearer, (split_no_sep " " token H).
Qed.

(** X12: every run of the gate ends in exactly one of four ways.  It
    forwards the request unchanged with no other call; or it raises the
    401 with the instructions before any call; or it invokes the
    validator once, the validator fails, and the gate raises the
    validator's 401 without forwarding; or the validator returns claims
    and the gate forwards the request once, with those claims stored.
    The gate never raises an [IndexError] or its own "Authentication
    failed", and never calls the rest of the chain twice. *)
Theorem gate_terminal_states {Response : Type} (W : World) (cfg : Config)
    (auth_handler : EntraIDAuth) (self : AuthMiddleware) (request : Request)
    (call_next : Request -> res Response) :
  let m := AuthMiddleware_call W cfg auth_handler self request call_next in
  (m = ([EvCallNext request], call_next request)
   \/ m = ([], inl (missing_authorization cfg))
   \/ (exists token f,
         outcome (validate_token W cfg auth_handler token)
         = inl (http401 (detail_of f))
         /\ m = (EvValidateToken token
                   :: trace (validate_token W cfg auth_handler token),
                 inl (http401 (detail_of f))))
   \/ (exists token cl,
         outcome (validate_token W cfg auth_handler token) = inr cl
         /\ m = (EvValidateToken token
                   :: trace (validate_token W cfg auth_handler token)
                   ++ [EvCallNext (set_state_user request cl)],
                 call_next (set_state_user request cl))))
  /\ (length (forwarded (trace m)) <= 1)%nat.
Proof.
  intros m. subst m.
  assert (Hcases :
    AuthMiddleware_call W cfg auth_handler self request call_next
    = ([EvCallNext request], call_next request)
    \/ AuthMiddleware_call W cfg auth_handler self request call_next
       = ([], inl (missing_authorization cfg))
    \/ (exists token f,
          outcome (validate_token W cfg auth_handler token)
          = inl (http401 (detail_of f))
          /\ AuthMiddleware_call W cfg auth_handler self request call_next
             = (EvValidateToken token
                  :: trace (validate_token W cfg auth_handler token),
                inl (http401 (detail_of f))))
    \/ (exists token cl,
          outcome (validate_token W cfg auth_handler token) = inr cl
          /\ AuthMiddleware_call W cfg auth_handler self request call_next
             = (EvValidateToken token
                  :: trace (validate_token W cfg auth_handler token)
                  ++ [EvCallNext (set_state_user request cl)],
                call_next (set_state_user request cl)))).
  { destruct (is_excluded self request) eqn:Hex.
    { left. unfold AuthMiddleware_call. now rewrite Hex. }
    destruct (ENABLE_AUTH cfg) eqn:Hen.
    2:{ left. unfold AuthMiddleware_call. now rewrite Hex, Hen. }
    destruct (bad_authorization (headers_get "Authorization" request)) eqn:Hbad.
    { right. left. unfold AuthMiddleware_call. cbv zeta.
      now rewrite Hex, Hen, Hbad. }
    destruct (headers_get "Authorization" request) as [h|] eqn:Hh;
      [|discriminate].
    assert (Hp : PyStr.startswith h "Bearer " = true).
    { unfold bad_authorization in Hbad. apply orb_false_iff in Hbad as [_ Hb].
      now apply negb_false_iff in Hb. }
    destruct (bearer_second_segment h Hp) as (rest & token & _ & _ & Htok).
    right. right.
    rewrite (gate_bearer_run W cfg auth_handler self call_next request h token
               Hex Hen Hh Hp Htok).
    destruct (outcome (validate_token W cfg auth_handler token)) as [x|cl] eqn:Ho.
    - left. destruct (validate_token_failure _ _ _ _ _ Ho) as [f ->].
      exists token, f. now rewrite Ho.
    - right. exists token, cl. now rewrite Ho. }
  split; [exact Hcases|].
  destruct Hcases as [H|[H|[(token & f & _ & H)|(token & cl & _ & H)]]];
    rewrite H; unfold trace at 1; cbn [fst].
  - simpl. lia.
  - simpl. lia.
  - rewrite <- (app_nil_r (trace _)), forwarded_bearer_run. simpl. lia.
  - rewrite forwarded_bearer_run. simpl. lia.
Qed.

(** X13: with authentication enabled, a request to a path outside the
    excluded prefixes that carries [Authorization: Bearer <token>] with a
    space-free token the validator accepts is forwarded once, with the
    validated claims stored on it; behind the gate [get_current_user]
    returns exactly those claims and [/me] reports their [sub] as the
    user id. *)
Theorem valid_bearer_reaches_handler {Response : Type} (W : World)
    (cfg : Config) (auth_handler : EntraIDAuth) (self : AuthMiddleware)
    (request : Request) (call_next : Request -> res Response)
    (token : string) (cl : claims) :
  ENABLE_AUTH cfg = true ->
  is_excluded self request = false ->
  headers_get "Authorization" request = Some ("Bearer " +:+ token) ->
  PyStr.contains " " token = false ->
  outcome (validate_token W cfg auth_handler token) = inr cl ->
  AuthMiddleware_call W cfg auth_handler self request call_next
  = (EvValidateToken token :: trace (validate_token W cfg auth_handler token)
       ++ [EvCallNext (set_state_user request cl)],
     call_next (set_state_user request cl))
  /\ get_current_user cfg (set_state_user request cl) = inr cl
  /\ (forall info, Main.get_user_info cfg (set_state_user request cl) = inr info ->
        info !! "user_id" = Some (default VNull (cl !! "sub"))).
Proof.
  intros Hen Hex Hh Hsp Ho.
  assert (Hu : get_current_user cfg (set_state_user request cl) = inr cl).
  { unfold get_current_user. now rewrite Hen. }
  split; [|split; [exact Hu|]].
  - rewrite (gate_bearer_run W cfg auth_handler self call_next request
               ("Bearer " +:+ token) token Hex Hen Hh
               (prefix_append "Bearer " token) (bearer_header_token token Hsp)).
    now rewrite Ho.
  - intros info. unfold Main.get_user_info. rewrite Hu. unfold res_bind.
    destruct (Main.scopes_of cl) as [e|sc]; [discriminate|].
    intros H. inversion H; subst info. reflexivity.
Qed.

Lemma valid_bearer_reaches_handler_witness :
  outcome (AuthMiddleware_call Fixture2.world Fixture.cfg Fixture.handler
             Main.auth_middleware
             (Fixture.request_of "/me" [("authorization", "Bearer h1.full.good")])
             (Main.get_user_info Fixture.cfg))
  = Main.get_user_info Fixture.cfg
      (set_state_user
         (Fixture.request_of "/me" [("authorization", "Bearer h1.full.good")])
         Fixture2.full_claims).
Proof.
  pose proof (valid_bearer_reaches_handler Fixture2.world Fixture.cfg
                Fixture.handler Main.auth_middleware
                (Fixture.request_of "/me"
                   [("authorization", "Bearer h1.full.good")])
                (Main.get_user_info Fixture.cfg) "h1.full.good"
                Fixture2.full_claims eq_refl eq_refl eq_refl eq_refl
                ltac:(vm_compute; reflexivity)) as [H _].
  now rewrite H.
Defined.

(** X14: with authentication enabled, whatever the gate forwards for a
    path outside the excluded prefixes carries validated claims, so
    behind the gate [get_current_user] never raises there; for a path
    under an excluded prefix the request is forwarded as it came. *)
Theorem forwarded_protected_request_has_user {Response : Type} (W : World)
    (cfg : Config) (auth_handler : EntraIDAuth) (self : AuthMiddleware)
    (request : Request) (call_next : Request -> res Response)
    (request' : Request) :
  ENABLE_AUTH cfg = true ->
  request' ∈ forwarded
    (trace (AuthMiddleware_call W cfg auth_handler self request call_next)) ->
  (is_excluded self request = true /\ request' = request)
  \/ (is_excluded self request = false
      /\ exists token cl,
           outcome (validate_token W cfg auth_handler token) = inr cl
           /\ request' = set_state_user request cl
           /\ get_current_user cfg request' = inr cl).
Proof.
  intros Hen Hfw.
  destruct (is_excluded self request) eqn:Hex.
  { left. split; [reflexivity|].
    unfold AuthMiddleware_call in Hfw. rewrite Hex in Hfw. simpl in Hfw.
    now apply list_elem_of_singleton in Hfw. }
  right. split; [reflexivity|].
  destruct (bad_authorization (headers_get "Authorization" request)) eqn:Hbad.
  { unfold AuthMiddleware_call in Hfw. cbv zeta in Hfw.
    rewrite Hex, Hen, Hbad in Hfw. simpl in Hfw.
    now apply not_elem_of_nil in Hfw. }
  destruct (headers_get "Authorization" request) as [h|] eqn:Hh;
    [|discriminate].
  assert (Hp : PyStr.startswith h "Bearer " = true).
  { unfold bad_authorization in Hbad. apply orb_false_iff in Hbad as [_ Hb].
    now apply negb_false_iff in Hb. }
  destruct (bearer_second_segment h Hp) as (rest & token & _ & _ & Htok).
  rewrite (gate_bearer_forwarded W cfg auth_handler self call_next request h
             token Hex Hen Hh Hp Htok) in Hfw.
  destruct (outcome (validate_token W cfg auth_handler token)) as [e|cl] eqn:Ho.
  - now apply not_elem_of_nil in Hfw.
  - apply list_elem_of_singleton in Hfw. subst request'.
    exists token, cl. split; [exact Ho|]. split; [reflexivity|].
    unfold get_current_user. now rewrite Hen.
Qed.

Lemma forwarded_protected_request_has_user_witness :
  (is_excluded Main.auth_middleware
     (Fixture.request_of "/me" [("authorization", "Bearer h1.v2.good")]) = true
   /\ mkRequest "/me" [("authorization", "Bearer h1.v2.good")]
        (Some (Fixture.payload_of Fixture.issuer_v2 2000))
      = Fixture.request_of "/me" [("authorization", "Bearer h1.v2.good")])
  \/ (is_excluded Main.auth_middleware
        (Fixture.request_of "/me" [("authorization", "Bearer h1.v2.good")]) = false
      /\ exists token cl,
           outcome (validate_token Fixture.world Fixture.cfg Fixture.handler token)
           = inr cl
           /\ mkRequest "/me" [("authorization", "Bearer h1.v2.good")]
                (Some (Fixture.payload_of Fixture.issuer_v2 2000))
              = set_state_user
                  (Fixture.request_of "/me"
                     [("authorization", "Bearer h1.v2.good")]) cl
           /\ get_current_user Fixture.cfg
                (mkRequest "/me" [("authorization", "Bearer h1.v2.good")]
                   (Some (Fixture.payload_of Fixture.issuer_v2 2000)))
              = inr cl).
Proof.
  apply (forwarded_protected_request_has_user Fixture.world Fixture.cfg
           Fixture.handler Main.auth_middleware
           (Fixture.request_of "/me" [("authorization", "Bearer h1.v2.good")])
           Fixture.echo_route).
  - reflexivity.
  - vm_compute. apply list_elem_of_here.
Defined.

Lemma prefix_refl (p : string) : String.prefix p p = true.
Proof.
  induction p as [|a p IH]; simpl; [reflexivity|].
  destruct (ascii_dec a a); [exact IH|congruence].
Qed.

Lemma excluded_prefix_of_head self p hs st :
  head (excluded_paths self) = Some p ->
  is_excluded self (mkRequest p hs st) = true.
Proof.
  unfold is_excluded. destruct (excluded_paths self) as [|q qs]; [discriminate|].
  intros H. inversion H; subst q. simpl.
  unfold PyStr.startswith. now rewrite prefix_refl.
Qed.

(** X15: a path is excluded from authentication exactly when it extends
    one of the configured prefixes by any suffix, so every continuation
    of an excluded prefix, such as [/healthz] for [/health], bypasses the
    validator as well. *)
Theorem excluded_iff_extends_prefix (self : AuthMiddleware) (request : Request) :
  is_excluded self request = true
  <-> exists p suffix,
        p ∈ excluded_paths self /\ url_path request = p +:+ suffix.
Proof.
  unfold is_excluded. rewrite existsb_exists. split.
  - intros (p & Hin & Hp). apply prefix_app in Hp as [suffix Hs].
    exists p, suffix. split; [now apply list_elem_of_In|exact Hs].
  - intros (p & suffix & Hin & Hs). exists p.
    split; [now apply list_elem_of_In|].
    unfold PyStr.startswith. rewrite Hs. apply prefix_append.
Qed.

(** X16: the constructor never yields an empty exclusion list: an absent
    or empty argument gives the four default prefixes, any other list is
    kept as it is.  So every gate lets some paths through unauthenticated:
    a request whose path is the first excluded prefix is forwarded
    without validation. *)
Theorem exclusions_never_empty {Response : Type} (W : World) (cfg : Config)
    (auth_handler : EntraIDAuth) (excluded : option (list string))
    (call_next : Request -> res Response) :
  AuthMiddleware_init (Some []) = AuthMiddleware_init None
  /\ excluded_paths (AuthMiddleware_init None)
     = ["/docs"; "/redoc"; "/openapi.json"; "/health"]
  /\ (forall l, l <> [] -> excluded_paths (AuthMiddleware_init (Some l)) = l)
  /\ exists p,
       head (excluded_paths (AuthMiddleware_init excluded)) = Some p
       /\ forall hs st,
            AuthMiddleware_call W cfg auth_handler
              (AuthMiddleware_init excluded) (mkRequest p hs st) call_next
            = ([EvCallNext (mkRequest p hs st)], call_next (mkRequest p hs st)).
Proof.
  split; [reflexivity|]. split; [reflexivity|]. split.
  { intros [|p ps] H; [congruence|reflexivity]. }
  assert (Hhead : exists p,
            head (excluded_paths (AuthMiddleware_init excluded)) = Some p).
  { destruct excluded as [[|p ps]|]; simpl; eauto. }
  destruct Hhead as [p Hp]. exists p. split; [exact Hp|].
  intros hs st.
  assert (Hex : is_excluded (AuthMiddleware_init excluded) (mkRequest p hs st)
                = true).
  { apply excluded_prefix_of_head. exact Hp. }
  unfold AuthMiddleware_call. now rewrite Hex.
Qed.

Lemma exclusions_never_empty_witness :
  excluded_paths (AuthMiddleware_init (Some ["/health"; "/docs"]))
  = ["/health"; "/docs"].
Proof.
  refine (proj1 (proj2 (proj2 (exclusions_never_empty Fixture.world Fixture.cfg
            Fixture.handler None Fixture.echo_route))) _ _).
  discriminate.
Defined.

(* ===================================================================== *)
(** ** The routes of main.py *)
(* ===================================================================== *)

(** A visible ASCII character is not the start of a whitespace character. *)
Lemma ws_width_visible c r :
  (33 <= nat_of_ascii c <= 126)%nat -> PyStr.ws_width (String c r) = 0%nat.
Proof.
  intros [Hlo Hhi]. unfold PyStr.ws_width, PyStr.is_ascii_ws.
  assert ((nat_of_ascii c <=? 13)%nat = false) as -> by (apply Nat.leb_gt; lia).
  assert ((nat_of_ascii c <=? 32)%nat = false) as -> by (apply Nat.leb_gt; lia).
  assert ((nat_of_ascii c =? 194)%nat = false) as -> by (apply Nat.eqb_neq; lia).
  assert ((nat_of_ascii c =? 225)%nat = false) as -> by (apply Nat.eqb_neq; lia).
  assert ((nat_of_ascii c =? 226)%nat = false) as -> by (apply Nat.eqb_neq; lia).
  assert ((nat_of_ascii c =? 227)%nat = false) as -> by (apply Nat.eqb_neq; lia).
  rewrite !andb_false_r. simpl.
  destruct r as [|d [|e r]]; reflexivity.
Qed.

Lemma ws_fields_nonempty skip s : PyStr.ws_fields skip s <> [].
Proof.
  revert skip. induction s as [|c r IH]; intros skip;
    cbn [PyStr.ws_fields]; [discriminate|].
  destruct skip as [|k]; [|apply IH].
  destruct (PyStr.ws_width (String c r)); [|discriminate].
  destruct (PyStr.ws_fields 0 r); discriminate.
Qed.

(** A visible word in front of a string extends its first field. *)
Lemma ws_fields_visible w rest :
  PyStr.visible w = true ->
  PyStr.ws_fields 0 (w +:+ rest) =
  match PyStr.ws_fields 0 rest with
  | seg :: segs => (w +:+ seg) :: segs
  | [] => [w]
  end.
Proof.
  induction w as [|c w IH]; intros Hv.
  - change ("" +:+ rest) with rest.
    destruct (PyStr.ws_fields 0 rest) eqn:E; [|reflexivity].
    destruct (ws_fields_nonempty _ _ E).
  - cbn [PyStr.visible] in Hv. cbv zeta in Hv.
    apply andb_true_iff in Hv as [Hc Hw].
    apply andb_true_iff in Hc as [Hlo Hhi].
    apply Nat.leb_le in Hlo, Hhi.
    change (String c w +:+ rest) with (String c (w +:+ rest)).
    cbn [PyStr.ws_fields].
    rewrite (ws_width_visible c (w +:+ rest) (conj Hlo Hhi)), (IH Hw).
    destruct (PyStr.ws_fields 0 rest) eqn:E; [|reflexivity].
    destruct (ws_fields_nonempty _ _ E).
Qed.

Lemma append_empty_r (s : string) : s +:+ "" = s.
Proof.
  induction s as [|c s IH]; [reflexivity|].
  change (String c s +:+ "") with (String c (s +:+ "")). now rewrite IH.
Qed.

Lemma ws_fields_space rest :
  PyStr.ws_fields 0 (String " " rest) = "" :: PyStr.ws_fields 0 rest.
Proof. reflexivity. Qed.

(** The fields of space-joined visible words are the words. *)
Lemma ws_fields_join w ws :
  Forall (fun x => PyStr.visible x = true) (w :: ws) ->
  PyStr.ws_fields 0 (PyStr.join " " (w :: ws)) = w :: ws.
Proof.
  revert w. induction ws as [|w2 ws IH]; intros w Hv.
  - apply Forall_cons in Hv as [Hw _]. simpl.
    rewrite <- (append_empty_r w) at 1.
    rewrite (ws_fields_visible w "" Hw). simpl.
    now rewrite append_empty_r.
  - apply Forall_cons in Hv as [Hw Hws].
    change (PyStr.join " " (w :: w2 :: ws))
      with (w +:+ String " " (PyStr.join " " (w2 :: ws))).
    rewrite (ws_fields_visible w _ Hw), ws_fields_space, (IH w2 Hws).
    now rewrite append_empty_r.
Qed.

(** Splitting at whitespace undoes joining with single spaces, for
    non-empty words of visible ASCII characters. *)
Lemma split_ws_join names :
  Forall (fun x => x <> "" /\ PyStr.visible x = true) names ->
  PyStr.split_ws (PyStr.join " " names) = names.
Proof.
  intros H. unfold PyStr.split_ws. destruct names as [|w ws]; [reflexivity|].
  rewrite ws_fields_join.
  - induction H as [|x l [Hx _] _ IH]; [reflexivity|].
    simpl. destruct (String.eqb_spec x ""); [contradiction|].
    simpl. now rewrite IH.
  - eapply Forall_impl; [exact H|]. now intros x [_ Hx].
Qed.

(** Splitting at whitespace never yields an empty name. *)
Lemma split_ws_no_empty s : "" ∉ PyStr.split_ws s.
Proof.
  unfold PyStr.split_ws. intros H. apply list_elem_of_In, filter_In in H.
  destruct H as [_ H]. discriminate.
Qed.

(** The answer of [get_user_info] once the user and the scopes are known. *)
Lemma get_user_info_run cfg request td sc :
  get_current_user cfg request = inr td ->
  Main.scopes_of td = inr sc ->
  Main.get_user_info cfg request =
  inr (<[ "user_id" := Main.dict_get_or td "sub" VNull ]>
         (<[ "name" := Main.dict_get_or td "name" VNull ]>
            (<[ "email" :=
                  Main.dict_get_or td "email"
                    (Main.dict_get_or td "upn"
                       (Main.dict_get_or td "preferred_username" VNull)) ]>
               (<[ "roles" := Main.dict_get_or td "roles" (VArr []) ]>
                  (<[ "scopes" := sc ]> ∅))))).
Proof.
  intros Hu Hs. unfold Main.get_user_info. rewrite Hu. unfold res_bind.
  now rewrite Hs.
Qed.



(** X18: the scopes [/me] reports.  Without an [scp] claim the list is
    empty; a string-valued [scp] is cut at whitespace and no reported
    scope is empty; in particular names of visible ASCII characters
    joined by single spaces come back one by one; and an [scp] claim that
    is not a string makes the handler raise an [AttributeError] instead
    of answering. *)
Theorem user_info_scopes (cfg : Config) (request : Request) (td : claims) :
  get_current_user cfg request = inr td ->
  (td !! "scp" = None ->
     exists info, Main.get_user_info cfg request = inr info
       /\ info !! "scopes" = Some (VArr []))
  /\ (forall s, td !! "scp" = Some (VStr s) ->
        exists info, Main.get_user_info cfg request = inr info
          /\ info !! "scopes" = Some (VArr (VStr <$> PyStr.split_ws s))
          /\ "" ∉ PyStr.split_ws s)
  /\ (forall names,
        Forall (fun x => x <> "" /\ PyStr.visible x = true) names ->
        td !! "scp" = Some (VStr (PyStr.join " " names)) ->
        exists info, Main.get_user_info cfg request = inr info
          /\ info !! "scopes" = Some (VArr (VStr <$> names)))
  /\ (forall v, td !! "scp" = Some v -> (forall s, v <> VStr s) ->
        exists msg, Main.get_user_info cfg request
                    = inl (Exn AttributeError msg)).
Proof.
  intros Hu. split; [|split; [|split]].
  - intros Hs. eexists. split.
    + apply (get_user_info_run cfg request td (VArr []) Hu).
      unfold Main.scopes_of. now rewrite Hs.
    + reflexivity.
  - intros s Hs. eexists. split; [|split].
    + apply (get_user_info_run cfg request td
               (VArr (VStr <$> PyStr.split_ws s)) Hu).
      unfold Main.scopes_of. rewrite Hs. reflexivity.
    + reflexivity.
    + apply split_ws_no_empty.
  - intros names Hn Hs. eexists. split.
    + apply (get_user_info_run cfg request td
               (VArr (VStr <$> PyStr.split_ws (PyStr.join " " names))) Hu).
      unfold Main.scopes_of. rewrite Hs. reflexivity.
    + rewrite (split_ws_join names Hn). reflexivity.
  - intros v Hs Hv. unfold Main.get_user_info. rewrite Hu. unfold res_bind.
    unfold Main.scopes_of. rewrite Hs.
    destruct v as [| | |s| |]; try (eexists; reflexivity).
    now contradiction (Hv s).
Qed.

Lemma user_info_scopes_witness :
  exists info,
    Main.get_user_info Fixture.cfg
      (mkRequest "/me" [] (Some Fixture2.full_claims)) = inr info
    /\ info !! "scopes" = Some (VArr [VStr "user_read"; VStr "mail.read"]).
Proof.
  refine (proj1 (proj2 (proj2 (user_info_scopes Fixture.cfg
            (mkRequest "/me" [] (Some Fixture2.full_claims))
            Fixture2.full_claims eq_refl)))
            ["user_read"; "mail.read"] _ _).
  - repeat constructor; discriminate.
  - reflexivity.
Defined.

(** X19: while authentication is disabled the gate is not installed and
    [/me] answers every request, whatever it carries, with the
    development identity: user id development-user, name Development
    User, no email, no roles, no scopes. *)
Theorem development_user_info (W : World) (cfg : Config)
    (auth_handler : EntraIDAuth) (request : Request) :
  ENABLE_AUTH cfg = false ->
  exists info,
    Main.dispatch W cfg auth_handler request (Main.get_user_info cfg)
    = ([EvCallNext request], inr info)
    /\ info !! "user_id" = Some (VStr "development-user")
    /\ info !! "name" = Some (VStr "Development User")
    /\ info !! "email" = Some VNull
    /\ info !! "roles" = Some (VArr [])
    /\ info !! "scopes" = Some (VArr []).
Proof.
  intros Hen. eexists. split.
  - unfold Main.dispatch, call. rewrite Hen. f_equal.
    apply (get_user_info_run cfg request development_user (VArr [])).
    + unfold get_current_user. now rewrite Hen.
    + reflexivity.
  - repeat split; reflexivity.
Qed.

Lemma development_user_info_witness :
  exists info,
    Main.dispatch Fixture.world Fixture.cfg_off Fixture.handler
      (Fixture.request_of "/me" [("authorization", "Token abc")])
      (Main.get_user_info Fixture.cfg_off)
    = ([EvCallNext (Fixture.request_of "/me" [("authorization", "Token abc")])],
       inr info)
    /\ info !! "user_id" = Some (VStr "development-user")
    /\ info !! "name" = Some (VStr "Development User")
    /\ info !! "email" = Some VNull
    /\ info !! "roles" = Some (VArr [])
    /\ info !! "scopes" = Some (VArr []).
Proof.
  apply development_user_info. reflexivity.
Defined.

(** X20: the health route is reachable in every mode and with any
    headers: a request whose path starts with [/health] is handed to the
    handler at once, no token is looked at, and the answer reports
    whether authentication is enabled. *)
Theorem health_always_reachable (W : World) (cfg : Config)
    (auth_handler : EntraIDAuth) (request : Request) (suffix : string) :
  url_path request = "/health" +:+ suffix ->
  Main.dispatch W cfg auth_handler request
    (fun _ => inr (Main.health_check cfg))
  = ([EvCallNext request], inr (Main.health_check cfg))
  /\ Main.health_check cfg !! "status" = Some (VStr "healthy")
  /\ Main.health_check cfg !! "authentication"
     = Some (VStr (if ENABLE_AUTH cfg then "enabled" else "disabled")).
Proof.
  intros Hp. split; [|split; reflexivity].
  unfold Main.dispatch. destruct (ENABLE_AUTH cfg); [|reflexivity].
  assert (Hex : is_excluded Main.auth_middleware request = true).
  { unfold is_excluded, Main.auth_middleware. cbn [AuthMiddleware_init
      excluded_paths existsb]. unfold PyStr.startswith.
    rewrite Hp, (prefix_append "/health" suffix). reflexivity. }
  unfold AuthMiddleware_call. now rewrite Hex.
Qed.

Lemma health_always_reachable_witness :
  Main.dispatch Fixture.world Fixture.cfg Fixture.handler
    (Fixture.request_of "/health" [])
    (fun _ => inr (Main.health_check Fixture.cfg))
  = ([EvCallNext (Fixture.request_of "/health" [])],
     inr (Main.health_check Fixture.cfg))
  /\ Main.health_check Fixture.cfg !! "authentication" = Some (VStr "enabled").
Proof.
  destruct (health_always_reachable Fixture.world Fixture.cfg Fixture.handler
              (Fixture.request_of "/health" []) "" eq_refl) as (H1 & _ & H3).
  split; [exact H1|exact H3].
Defined.

(** No failure of the validator is named "User not authenticated". *)
Lemma detail_of_not_unauthenticated f :
  detail_of f <> "User not authenticated".
Proof. destruct f; cbv; discriminate. Qed.

(** X21: the handler of [/me] behind the gate of main.py, with
    authentication enabled.  On a request whose [request.url.path], the
    path the gate tests, lies outside the excluded prefixes, the handler
    answers only when the validator accepted the request's bearer token,
    it reports that token's [sub] as the user id, and the run never ends
    in the 401 "User not authenticated" of [get_current_user].  On a
    request whose [request.url.path] lies under an excluded prefix and
    whose state holds no user, the gate lets the request through and the
    handler ends in exactly that 401. *)
Theorem me_answers_only_validated (W : World) (cfg : Config)
    (auth_handler : EntraIDAuth) (request : Request) :
  ENABLE_AUTH cfg = true ->
  let m := Main.dispatch W cfg auth_handler request (Main.get_user_info cfg) in
  (is_excluded Main.auth_middleware request = false ->
     (forall info, outcome m = inr info ->
        exists token cl,
          EvValidateToken token ∈ trace m
          /\ outcome (validate_token W cfg auth_handler token) = inr cl
          /\ info !! "user_id" = Some (default VNull (cl !! "sub")))
     /\ outcome m <> inl (http401 "User not authenticated"))
  /\ (is_excluded Main.auth_middleware request = true ->
      state_user request = None ->
      m = ([EvCallNext request], inl (http401 "User not authenticated"))).
Proof.
  intros Hen m. subst m. unfold Main.dispatch. rewrite Hen. split.
  2:{ intros Hex Hfresh. unfold AuthMiddleware_call. rewrite Hex.
      unfold call. f_equal. unfold Main.get_user_info, get_current_user.
      now rewrite Hen, Hfresh. }
  intros Hex.
  destruct (bad_authorization (headers_get "Authorization" request)) eqn:Hbad.
  { assert (Hrun : AuthMiddleware_call W cfg auth_handler Main.auth_middleware
                     request (Main.get_user_info cfg)
                   = ([], inl (missing_authorization cfg))).
    { unfold AuthMiddleware_call. cbv zeta. now rewrite Hex, Hen, Hbad. }
    rewrite Hrun. split; [discriminate|]. unfold outcome. simpl. discriminate. }
  destruct (headers_get "Authorization" request) as [h|] eqn:Hh;
    [|discriminate].
  assert (Hpre : PyStr.startswith h "Bearer " = true).
  { unfold bad_authorization in Hbad. apply orb_false_iff in Hbad as [_ Hb].
    now apply negb_false_iff in Hb. }
  destruct (bearer_second_segment h Hpre) as (rest & token & _ & _ & Htok).
  rewrite (gate_bearer_run W cfg auth_handler Main.auth_middleware
             (Main.get_user_info cfg) request h token Hex Hen Hh Hpre Htok).
  destruct (outcome (validate_token W cfg auth_handler token)) as [x|cl] eqn:Ho.
  - destruct (validate_token_failure _ _ _ _ _ Ho) as [f ->].
    unfold outcome at 1 3. cbn [snd]. split; [discriminate|].
    intros H. inversion H as [Hd]. now apply detail_of_not_unauthenticated in Hd.
  - assert (Hu : get_current_user cfg (set_state_user request cl) = inr cl).
    { unfold get_current_user. now rewrite Hen. }
    unfold outcome at 1 3. cbn [snd]. split.
    + intros info Hi. exists token, cl. split; [apply list_elem_of_here|].
      split; [exact Ho|].
      destruct (Main.scopes_of cl) as [e|sc] eqn:Hs.
      { unfold Main.get_user_info in Hi. rewrite Hu in Hi.
        unfold res_bind in Hi. rewrite Hs in Hi. discriminate. }
      rewrite (get_user_info_run cfg _ cl sc Hu Hs) in Hi.
      inversion Hi; subst info. reflexivity.
    + unfold Main.get_user_info. rewrite Hu. unfold res_bind.
      destruct (Main.scopes_of cl) as [e|sc] eqn:Hs; [|discriminate].
      unfold Main.scopes_of in Hs.
      destruct (cl !! "scp") as [[| | |s| |]|]; inversion Hs; discriminate.
Qed.

Lemma me_answers_only_validated_witness :
  (exists token cl,
     EvValidateToken token
       ∈ trace (Main.dispatch Fixture2.world Fixture.cfg Fixture.handler
                  (Fixture.request_of "/me"
                     [("authorization", "Bearer h1.full.good")])
                  (Main.get_user_info Fixture.cfg))
     /\ outcome (validate_token Fixture2.world Fixture.cfg Fixture.handler token)
        = inr cl
     /\ (<[ "user_id" := VStr "carol" ]>
           (<[ "name" := VNull ]>
              (<[ "email" := VStr "carol@example.org" ]>
                 (<[ "roles" := VArr [] ]>
                    (<[ "scopes" := VArr [VStr "user_read"; VStr "mail.read"] ]>
                       (∅ : claims)))))) !! "user_id"
        = Some (default VNull (cl !! "sub")))
  /\ Main.dispatch Fixture.world Fixture.cfg Fixture.handler
       (Fixture.request_of "/health/me" []) (Main.get_user_info Fixture.cfg)
     = ([EvCallNext (Fixture.request_of "/health/me" [])],
        inl (http401 "User not authenticated")).
Proof.
  split.
  - apply (proj1 (proj1 (me_answers_only_validated Fixture2.world Fixture.cfg
                    Fixture.handler
                    (Fixture.request_of "/me"
                       [("authorization", "Bearer h1.full.good")])
                    eq_refl) eq_refl)).
    vm_compute. reflexivity.
  - exact (proj2 (me_answers_only_validated Fixture.world Fixture.cfg
                    Fixture.handler (Fixture.request_of "/health/me" [])
                    eq_refl) eq_refl eq_refl).
Defined.

(** X22: the remediation instructions of the 401 are built from the
    tenant id and the client id alone.  With the audience input unset,
    the scope they advertise is the accepted audience followed by
    [/user_read]; setting the audience input changes the audience that
    validation requires but not the advertised scope. *)
Theorem advertised_scope_from_client_id (env : gmap string string) :
  (env !! "TOKEN_AUDIENCE" = None ->
     instruction (missing_authorization (load_config env)) "required_scopes"
     = Some (DStr (TOKEN_AUDIENCE (load_config env) +:+ "/user_read")))
  /\ (forall aud,
        TOKEN_AUDIENCE (load_config (<[ "TOKEN_AUDIENCE" := aud ]> env)) = aud
        /\ missing_authorization (load_config (<[ "TOKEN_AUDIENCE" := aud ]> env))
           = missing_authorization (load_config env)).
Proof.
  split.
  - intros H. unfold load_config, getenv_default, getenv. simpl.
    rewrite H. reflexivity.
  - intros aud. unfold load_config, getenv_default, getenv, missing_authorization.
    simpl. rewrite lookup_insert_eq.
    rewrite !(lookup_insert_ne env "TOKEN_AUDIENCE") by discriminate.
    split; reflexivity.
Qed.

Lemma advertised_scope_from_client_id_witness :
  instruction (missing_authorization (load_config Fixture.env)) "required_scopes"
  = Some (DStr "api://c1/user_read").
Proof.
  exact (proj1 (advertised_scope_from_client_id Fixture.env) eq_refl).
Defined.
